(** * scripts/income.py: the diagnostic HTTP listener

    A shallow embedding of [RequestHandler] (a subclass of
    [http.server.BaseHTTPRequestHandler]) and of the serving loop started by
    [run].  The handler methods [_set_headers], [do_GET] and [do_POST] are
    translated statement by statement into a small state-and-exception monad.
    The standard-library operations they call ([print], [headers.get],
    [headers.items], [int], [rfile.read], [bytes.decode], [send_response],
    [send_header], [end_headers], [wfile.write], [serve_forever]) are modelled
    after CPython's behaviour (3.11, 64-bit) on requests of HTTP/1.0 and
    later, with these idealisations: the process has the memory it asks
    for, standard output encodes every text, and the client takes the
    bytes written to it. *)

From Stdlib Require Import ZArith NArith List Bool Lia.
From Stdlib.Strings Require Import String Ascii Byte.
From Stdlib.Numbers Require Import DecimalString.
From Stdlib.Numbers Require DecimalPos.
Import ListNotations.

Local Open Scope string_scope.
Local Open Scope list_scope.

(** ** Python data *)

(** A Python [bytes] object. *)
Definition bytes := list byte.

(** A Python [str]: a sequence of Unicode code points. *)
Definition text := list N.

(** Request line and header fields are decoded by the base class as
    ISO-8859-1, so [self.path], header names and header values are strings of
    code points below 256: Rocq's [string] of 8-bit characters. *)
Definition latin1 (s : string) : text :=
  map N_of_ascii (list_ascii_of_string s).

(** A bytes literal [b"..."], and [s.encode('latin-1')]. *)
Definition b (s : string) : bytes := list_byte_of_string s.

Definition LF : string := String (ascii_of_nat 10) EmptyString.
Definition CRLF : string := String (ascii_of_nat 13) LF.

(** The exceptions the handlers can raise. *)
Inductive exn : Type :=
| ValueError
| OverflowError
| UnicodeDecodeError.

(** What [headers.get(name, 0)] hands to [int]: a header value or the
    default, the integer [0]. *)
Inductive pyval : Type :=
| PyStr (s : string)
| PyInt (z : Z).

(** ** [bytes.decode('utf-8')]

    Strict decoding: the well-formed byte sequences of the Unicode standard
    (no overlong forms, no surrogates, nothing above U+10FFFF). *)

Definition between (lo hi x : N) : bool := ((lo <=? x) && (x <=? hi))%N.

Definition continuation (x : N) : bool := between 0x80 0xBF x.

Fixpoint utf8_decode (bs : bytes) : option text :=
  match bs with
  | [] => Some []
  | b0 :: r0 =>
    let x0 := Byte.to_N b0 in
    if (x0 <? 0x80)%N then
      option_map (cons x0) (utf8_decode r0)
    else if (x0 <? 0xC2)%N then None
    else if (x0 <? 0xE0)%N then
      match r0 with
      | b1 :: r1 =>
        let x1 := Byte.to_N b1 in
        if continuation x1
        then option_map (cons ((x0 - 0xC0) * 0x40 + (x1 - 0x80))%N)
                        (utf8_decode r1)
        else None
      | _ => None
      end
    else if (x0 <? 0xF0)%N then
      match r0 with
      | b1 :: b2 :: r2 =>
        let x1 := Byte.to_N b1 in
        let x2 := Byte.to_N b2 in
        let lo := if (x0 =? 0xE0)%N then 0xA0%N else 0x80%N in
        let hi := if (x0 =? 0xED)%N then 0x9F%N else 0xBF%N in
        if between lo hi x1 && continuation x2
        then option_map
               (cons ((x0 - 0xE0) * 0x1000 + (x1 - 0x80) * 0x40
                      + (x2 - 0x80))%N)
               (utf8_decode r2)
        else None
      | _ => None
      end
    else if (x0 <? 0xF5)%N then
      match r0 with
      | b1 :: b2 :: b3 :: r3 =>
        let x1 := Byte.to_N b1 in
        let x2 := Byte.to_N b2 in
        let x3 := Byte.to_N b3 in
        let lo := if (x0 =? 0xF0)%N then 0x90%N else 0x80%N in
        let hi := if (x0 =? 0xF4)%N then 0x8F%N else 0xBF%N in
        if between lo hi x1 && continuation x2 && continuation x3
        then option_map
               (cons ((x0 - 0xF0) * 0x40000 + (x1 - 0x80) * 0x1000
                      + (x2 - 0x80) * 0x40 + (x3 - 0x80))%N)
               (utf8_decode r3)
        else None
      | _ => None
      end
    else None
  end.

(** ** [int(x)]

    For a [str] argument CPython first maps the non-ASCII white space of the
    string to a blank and every other non-ASCII character to [?] (a Latin-1
    string holds no non-ASCII decimal digit), then reads, in base ten,
    white space, an optional sign, digits with single underscores between
    them, and white space up to the end of the string. *)

Definition is_ascii (s : string) : bool :=
  forallb (fun a => (N_of_ascii a <? 128)%N) (list_ascii_of_string s).

(** [Py_UNICODE_ISSPACE] on the code points 127..255. *)
Definition unicode_isspace_high (n : N) : bool :=
  ((n =? 0x85) || (n =? 0xA0))%N.

Definition transform_char (a : ascii) : ascii :=
  let n := N_of_ascii a in
  if (n <? 127)%N then a
  else if unicode_isspace_high n then " "%char
  else "?"%char.

Fixpoint map_string (f : ascii -> ascii) (s : string) : string :=
  match s with
  | EmptyString => EmptyString
  | String a r => String (f a) (map_string f r)
  end.

Definition transform_decimal_and_space_to_ascii (s : string) : string :=
  if is_ascii s then s else map_string transform_char s.

(** [Py_ISSPACE]: tab, line feed, vertical tab, form feed, carriage return
    and blank. *)
Definition py_isspace (a : ascii) : bool :=
  let n := N_of_ascii a in
  (between 9 13 n || (n =? 32))%N.

Fixpoint skip_space (s : string) : string :=
  match s with
  | String a r => if py_isspace a then skip_space r else s
  | EmptyString => s
  end.

Definition digit_value (a : ascii) : option Z :=
  let n := N_of_ascii a in
  if between 48 57 n then Some (Z.of_N n - 48)%Z else None.

Definition is_underscore (a : ascii) : bool := (N_of_ascii a =? 95)%N.

(** The digit scan of [long_from_string_base]: [prev_us] tells whether the
    previous character was an underscore, [digits] counts the digits read,
    [acc] is their value.  [None]: two underscores in a row. *)
Fixpoint scan_digits (s : string) (prev_us : bool) (digits : N) (acc : Z)
  : option (string * bool * N * Z) :=
  match s with
  | EmptyString => Some (s, prev_us, digits, acc)
  | String a r =>
    if is_underscore a then
      if prev_us then None else scan_digits r true digits acc
    else
      match digit_value a with
      | Some d => scan_digits r false (digits + 1)%N (acc * 10 + d)%Z
      | None => Some (s, prev_us, digits, acc)
      end
  end.

Definition is_empty (s : string) : bool :=
  match s with EmptyString => true | _ => false end.

(** The integer literal read from the string, with the number of its
    digits; [None] when the string is not a valid integer literal. *)
Definition parse_int_literal (s : string) : option (Z * N) :=
  let s0 := skip_space (transform_decimal_and_space_to_ascii s) in
  let '(negative, s1) :=
    match s0 with
    | String "+"%char r => (false, r)
    | String "-"%char r => (true, r)
    | _ => (false, s0)
    end in
  match s1 with
  | String "_"%char _ => None
  | _ =>
    match scan_digits s1 false 0%N 0%Z with
    | None => None
    | Some (rest, prev_us, digits, acc) =>
      if prev_us then None
      else if (digits =? 0)%N then None
      else if is_empty (skip_space rest)
           then Some (if negative then (- acc)%Z else acc, digits)
           else None
    end
  end.

(** [sys.int_info.default_max_str_digits]: a literal of more digits is
    refused with [ValueError]. *)
Definition max_str_digits : N := 4300.

Definition int_of_str (s : string) : option Z :=
  match parse_int_literal s with
  | Some (z, digits) => if (max_str_digits <? digits)%N then None else Some z
  | None => None
  end.

(** The value of [int(v)], [None] when it raises [ValueError]. *)
Definition int_value (v : pyval) : option Z :=
  match v with
  | PyInt z => Some z
  | PyStr s => int_of_str s
  end.


(** ** [self.headers]: an [http.client.HTTPMessage]

    The header fields in the order they were received, one entry per
    field line. *)

Definition HTTPMessage := list (string * string).

(** [str.lower] on Latin-1 text. *)
Definition lower_char (a : ascii) : ascii :=
  let n := N_of_ascii a in
  if between 0x41 0x5A n || (between 0xC0 0xDE n && negb (n =? 0xD7)%N)
  then ascii_of_N (n + 0x20)
  else a.

Definition lower (s : string) : string := map_string lower_char s.

(** [Message.get(name, failobj)]: the value of the first field whose name
    matches [name] without regard to case, or [failobj]. *)
Fixpoint get (m : HTTPMessage) (name : string) (failobj : pyval) : pyval :=
  match m with
  | [] => failobj
  | (k, v) :: r =>
    if String.eqb (lower k) (lower name) then PyStr v else get r name failobj
  end.

(** [Message.items()]: every field, in order. *)
Definition items (m : HTTPMessage) : list (string * string) := m.

(** ** Outcomes and the input stream [self.rfile] *)

(** A call returns, raises, or never returns because a read waits for
    bytes that the peer does not send. *)
Inductive outcome (A : Type) : Type :=
| Returned (a : A)
| Raised (e : exn)
| Blocked.

Arguments Returned {A} a.
Arguments Raised {A} e.
Arguments Blocked {A}.

(** What is left of the connection's input after the header block:
    [pending] are the bytes the peer sends from here on, [eof] tells whether
    it then closes its side ([true]) or keeps the connection open and
    silent ([false]). *)
Record stream : Type := mkStream {
  pending : bytes;
  eof : bool
}.

(** The largest count a read takes (a 64-bit build of CPython). *)
Definition PY_SSIZE_T_MAX : Z := 2 ^ 63 - 1.

(** [BufferedReader.read(size)]: [size] bytes, fewer at end of stream;
    [-1] reads to the end of the stream.  A count that does not fit a
    machine word is refused with [OverflowError], another count below [-1]
    with [ValueError] (read length must be non-negative or -1).  The reader
    is taken to have room for the bytes it is asked for: [MemoryError] is
    not modelled. *)
Definition read (f : stream) (size : Z) : outcome bytes * stream :=
  if ((size <? - PY_SSIZE_T_MAX - 1) || (PY_SSIZE_T_MAX <? size))%Z
  then (Raised OverflowError, f)
  else if (size <? -1)%Z then (Raised ValueError, f)
  else if (size =? -1)%Z then
    if eof f then (Returned (pending f), mkStream [] true)
    else (Blocked, f)
  else
    let n := Z.to_nat size in
    if (n <=? List.length (pending f))%nat
    then (Returned (firstn n (pending f)), mkStream (skipn n (pending f)) (eof f))
    else if eof f then (Returned (pending f), mkStream [] true)
    else (Blocked, f).

(** ** The state a handler acts on *)

(** A line on the error stream: the access log entry written by
    [send_response], or the report [socketserver] prints for an exception
    that escaped a handler. *)
Inductive diagnostic : Type :=
| log_request (code : Z)
| handle_error (e : exn).

Record world : Type := mkWorld {
  rfile : stream;
  headers_buffer : list bytes;
  wfile : bytes;
  stdout : list text;
  stderr : list diagnostic
}.

(** The attributes of [self] that the handlers only read. *)
Record request : Type := mkRequest {
  path : string;
  headers : HTTPMessage
}.

(** What the base-class methods [version_string()] and
    [date_time_string()] return while a request is handled. *)
Record environ : Type := mkEnviron {
  version_string : string;
  date_time_string : string
}.

(** ** The monad of handler code *)

Definition M (A : Type) : Type := world -> outcome A * world.

Definition ret {A : Type} (a : A) : M A := fun w => (Returned a, w).

Definition raise {A : Type} (e : exn) : M A := fun w => (Raised e, w).

Definition bind {A B : Type} (m : M A) (k : A -> M B) : M B :=
  fun w =>
    match m w with
    | (Returned a, w') => k a w'
    | (Raised e, w') => (Raised e, w')
    | (Blocked, w') => (Blocked, w')
    end.

Declare Scope py_scope.
Delimit Scope py_scope with py.
Notation "x <- m ;; k" := (bind m (fun x => k))
  (at level 61, m at next level, right associativity) : py_scope.
Notation "m ;; k" := (bind m (fun _ => k))
  (at level 61, right associativity) : py_scope.
Local Open Scope py_scope.

(** [for x in xs: body x] *)
Fixpoint for_each {A : Type} (xs : list A) (body : A -> M unit) : M unit :=
  match xs with
  | [] => ret tt
  | x :: r => body x ;; for_each r body
  end.

(** ** Library operations *)

(** [print(t)]: one more line on standard output, which is taken to
    encode every text (UTF-8). *)
Definition print (t : text) : M unit :=
  fun w => (Returned tt,
            mkWorld (rfile w) (headers_buffer w) (wfile w)
                    (stdout w ++ [t]) (stderr w)).

(** One more entry on the error stream. *)
Definition log (d : diagnostic) : M unit :=
  fun w => (Returned tt,
            mkWorld (rfile w) (headers_buffer w) (wfile w)
                    (stdout w) (stderr w ++ [d])).

(** [int(v)] *)
Definition py_int (v : pyval) : M Z :=
  match int_value v with
  | Some z => ret z
  | None => raise ValueError
  end.

(** [self.rfile.read(size)] *)
Definition rfile_read (size : Z) : M bytes :=
  fun w =>
    let (o, f) := read (rfile w) size in
    (o, mkWorld f (headers_buffer w) (wfile w) (stdout w) (stderr w)).

(** [bs.decode('utf-8')] *)
Definition decode (bs : bytes) : M text :=
  match utf8_decode bs with
  | Some t => ret t
  | None => raise UnicodeDecodeError
  end.

(** [self.wfile.write(bs)]: the bytes go out on the connection. *)
Definition wfile_write (bs : bytes) : M unit :=
  fun w => (Returned tt,
            mkWorld (rfile w) (headers_buffer w) (wfile w ++ bs)
                    (stdout w) (stderr w)).

(** [self._headers_buffer.append(line)] *)
Definition buffer_append (line : bytes) : M unit :=
  fun w => (Returned tt,
            mkWorld (rfile w) (headers_buffer w ++ [line]) (wfile w)
                    (stdout w) (stderr w)).

Definition protocol_version : string := "HTTP/1.0".

(** The reason phrases of [BaseHTTPRequestHandler.responses] for the
    status codes of this server; an unknown code has the empty phrase. *)
Definition responses (code : Z) : string :=
  if (code =? 200)%Z then "OK"
  else if (code =? 400)%Z then "Bad Request"
  else if (code =? 501)%Z then "Not Implemented"
  else "".

(** [%d] *)
Definition decimal (z : Z) : string := NilZero.string_of_int (Z.to_int z).

Definition status_line (code : Z) : string :=
  protocol_version ++ " " ++ decimal code ++ " " ++ responses code ++ CRLF.

Definition header_line (keyword value : string) : string :=
  keyword ++ ": " ++ value ++ CRLF.

(** [send_response_only(code)]: the status line goes to the header
    buffer, with the reason phrase of the code. *)
Definition send_response_only (code : Z) : M unit :=
  buffer_append (b (status_line code)).

(** [send_header(keyword, value)]: one field line to the header buffer. *)
Definition send_header (keyword value : string) : M unit :=
  buffer_append (b (header_line keyword value)).

(** [send_response(code)]: logs the request, buffers the status line and
    adds two standard header fields, with the version of the server software
    and the current date. *)
Definition send_response (e : environ) (code : Z) : M unit :=
  log (log_request code) ;;
  send_response_only code ;;
  send_header "Server" (version_string e) ;;
  send_header "Date" (date_time_string e).

(** [flush_headers()]: the buffered lines are written out and the buffer
    emptied. *)
Definition flush_headers : M unit :=
  fun w => (Returned tt,
            mkWorld (rfile w) [] (wfile w ++ List.concat (headers_buffer w))
                    (stdout w) (stderr w)).

(** [end_headers()]: the blank line that ends the header block, then
    [flush_headers]. *)
Definition end_headers : M unit :=
  buffer_append (b CRLF) ;;
  flush_headers.

(** ** [RequestHandler] *)

Definition _set_headers (e : environ) : M unit :=
  send_response e 200 ;;
  send_header "Content-type" "text/plain" ;;
  end_headers.

Definition do_GET (e : environ) (self : request) : M unit :=
  print (latin1 (LF ++ "===== GET REQUEST ======")) ;;
  print (latin1 ("Path: " ++ path self)) ;;
  print (latin1 "Headers:") ;;
  for_each (items (headers self)) (fun '(header, value) =>
    print (latin1 ("  " ++ header ++ ": " ++ value))) ;;
  _set_headers e ;;
  wfile_write (b "GET request received").

Definition do_POST (e : environ) (self : request) : M unit :=
  content_length <- py_int (get (headers self) "Content-Length" (PyInt 0)) ;;
  post_data <- rfile_read content_length ;;
  print (latin1 (LF ++ "===== POST REQUEST ======")) ;;
  print (latin1 ("Path: " ++ path self)) ;;
  print (latin1 "Headers:") ;;
  for_each (items (headers self)) (fun '(header, value) =>
    print (latin1 ("  " ++ header ++ ": " ++ value))) ;;
  body <- decode post_data ;;
  print (latin1 ("Body:" ++ LF) ++ body) ;;
  _set_headers e ;;
  wfile_write (b "POST request received").

(** ** The listener: [run] and [HTTPServer.serve_forever] *)

Inductive method : Type := GET | POST.

(** An accepted connection carrying one request. *)
Record connection : Type := mkConnection {
  conn_environ : environ;
  command : method;
  conn_request : request;
  conn_input : stream
}.

(** The handler's state when its method is called: fresh output, the
    consoles as the earlier requests left them. *)
Definition accept (c : connection) (out : list text) (err : list diagnostic)
  : world :=
  mkWorld (conn_input c) [] [] out err.

(** The base class calls the method named after the request method. *)
Definition handle_one_request (c : connection) : M unit :=
  match command c with
  | GET => do_GET (conn_environ c) (conn_request c)
  | POST => do_POST (conn_environ c) (conn_request c)
  end.

(** What the listener has done when it has gone through the connections
    [cs], or is stuck in one of them: the bytes sent on each connection it
    took up, the consoles, and whether it is stuck. *)
Record served : Type := mkServed {
  replies : list bytes;
  console : list text;
  errors : list diagnostic;
  stuck : bool
}.

(** [serve_forever]: connections are taken up one after the other; an
    exception that escapes the handler is reported and the connection
    closed, and the loop goes on. *)
Fixpoint serve_forever (cs : list connection) (out : list text)
         (err : list diagnostic) : served :=
  match cs with
  | [] => mkServed [] out err false
  | c :: rest =>
    match handle_one_request c (accept c out err) with
    | (Returned _, w) =>
      let s := serve_forever rest (stdout w) (stderr w) in
      mkServed (wfile w :: replies s) (console s) (errors s) (stuck s)
    | (Raised e, w) =>
      let s := serve_forever rest (stdout w) (stderr w ++ [handle_error e]) in
      mkServed (wfile w :: replies s) (console s) (errors s) (stuck s)
    | (Blocked, w) =>
      mkServed [wfile w] (stdout w) (stderr w) true
    end
  end.

(** [run(port=8090)], for the connections [cs] that come in. *)
Definition run (port : Z) (cs : list connection) : served :=
  serve_forever cs
                [latin1 ("Starting server on port " ++ decimal port ++ "...")]
                [].

(** ** Views used to state the properties *)

(** The body of [do_POST] from the first [print] on, for the body bytes
    [post_data] that were read. *)
Definition log_and_reply (e : environ) (self : request) (post_data : bytes)
  : M unit :=
  print (latin1 (LF ++ "===== POST REQUEST ======")) ;;
  print (latin1 ("Path: " ++ path self)) ;;
  print (latin1 "Headers:") ;;
  for_each (items (headers self)) (fun '(header, value) =>
    print (latin1 ("  " ++ header ++ ": " ++ value))) ;;
  body <- decode post_data ;;
  print (latin1 ("Body:" ++ LF) ++ body) ;;
  _set_headers e ;;
  wfile_write (b "POST request received").

(** A text of code points below 256, as a string. *)
Definition as_string (t : text) : string :=
  string_of_list_ascii (map ascii_of_N t).

(** The console line of one header field. *)
Definition header_text (field : string * string) : text :=
  latin1 ("  " ++ fst field ++ ": " ++ snd field).

(** The console lines both handlers print before anything else. *)
Definition preamble (verb : string) (self : request) : list text :=
  [latin1 (LF ++ "===== " ++ verb ++ " REQUEST ======");
   latin1 ("Path: " ++ path self);
   latin1 "Headers:"]
  ++ map header_text (headers self).

(** An HTTP response and the bytes that carry it. *)
Record response : Type := mkResponse {
  status : Z;
  reason : string;
  fields : list (string * string);
  content : bytes
}.

Definition on_the_wire (r : response) : bytes :=
  b (protocol_version ++ " " ++ decimal (status r) ++ " " ++ reason r ++ CRLF)
  ++ List.concat (map (fun f => b (header_line (fst f) (snd f))) (fields r))
  ++ b CRLF
  ++ content r.

(** The acknowledgement [_set_headers] and the final write produce. *)
Definition acknowledgement (e : environ) (body : string) : response :=
  mkResponse 200 "OK"
             [("Server", version_string e);
              ("Date", date_time_string e);
              ("Content-type", "text/plain")]
             (b body).

(** The status line and header block that [_set_headers] sends. *)
Definition head (e : environ) : bytes :=
  b (status_line 200)
  ++ b (header_line "Server" (version_string e))
  ++ b (header_line "Date" (date_time_string e))
  ++ b (header_line "Content-type" "text/plain")
  ++ b CRLF.

(** The response is of the class [k]xx. *)
Definition replies_with_class (k : Z) (sent : bytes) : Prop :=
  exists r, (100 * k <= status r < 100 * (k + 1))%Z /\ sent = on_the_wire r.

(** Does the message have a field of that name? *)
Definition has_header (m : HTTPMessage) (name : string) : bool :=
  existsb (fun f => String.eqb (lower (fst f)) (lower name)) m.

(** ** Sample requests *)

Definition QUOTE : string := String (ascii_of_nat 34) EmptyString.

Definition an_environ : environ :=
  mkEnviron "BaseHTTP/0.6 Python/3.11.2" "Tue, 03 Nov 2026 20:20:00 GMT".

Definition a_second_later : environ :=
  mkEnviron "BaseHTTP/0.6 Python/3.11.2" "Tue, 03 Nov 2026 20:20:01 GMT".

(** [GET /status] with the header [X-Test: 1]. *)
Definition get_status : connection :=
  mkConnection an_environ GET
               (mkRequest "/status" [("X-Test", "1")])
               (mkStream [] false).


(** [POST /webhook] with the seven bytes of a small JSON object as body, on
    a connection that the client keeps open. *)
Definition json_body : string := "{" ++ QUOTE ++ "a" ++ QUOTE ++ ":1}".

Definition post_webhook : connection :=
  mkConnection an_environ POST
               (mkRequest "/webhook"
                          [("Host", "localhost:8090"); ("Content-Length", "7")])
               (mkStream (b json_body) false).

(** A POST request without a Content-Length header, and the same request
    with the header [Content-Length: 0]. *)
Definition post_bare : request :=
  mkRequest "/webhook" [("Host", "localhost:8090")].

Definition post_zero : request :=
  mkRequest "/webhook" [("Host", "localhost:8090"); ("content-length", "0")].

(** A POST request with a Content-Length that is no integer literal. *)
Definition post_malformed : connection :=
  mkConnection an_environ POST
               (mkRequest "/webhook" [("Content-Length", "abc")])
               (mkStream (b "abc") false).

(** A POST request whose one body byte is not UTF-8. *)
Definition post_undecodable : connection :=
  mkConnection an_environ POST
               (mkRequest "/webhook" [("Content-Length", "1")])
               (mkStream [xff] false).

(** POST requests with a negative Content-Length, from a client that
    closes its side after five bytes. *)
Definition post_minus_five : connection :=
  mkConnection an_environ POST
               (mkRequest "/webhook" [("Content-Length", "-5")])
               (mkStream (b "hello") true).

Definition post_minus_one : connection :=
  mkConnection an_environ POST
               (mkRequest "/webhook" [("Content-Length", "-1")])
               (mkStream (b "hello") true).

(** A POST request that repeats a header name. *)
Definition post_repeated : connection :=
  mkConnection an_environ POST
               (mkRequest "/" [("X-A", "1"); ("x-a", "2"); ("X-A", "1");
                               ("Content-Length", "2")])
               (mkStream (b "ok") false).

(** ** Further views and sample requests *)



(** What the request of [c] adds to standard output and to the error
    stream of the listener, read off a run on empty consoles. *)
Definition request_lines (c : connection) : list text :=
  stdout (snd (handle_one_request c (accept c [] []))).

Definition request_errors (c : connection) : list diagnostic :=
  let r := handle_one_request c (accept c [] []) in
  stderr (snd r) ++ match fst r with
                    | Raised x => [handle_error x]
                    | _ => []
                    end.





(** ** UTF-8 from the side of the client

    [t.encode('utf-8')], for a text of Unicode scalar values, and the
    decoding of one character, to state what [utf8_decode] accepts. *)

Definition byte_of_N (n : N) : byte :=
  match Byte.of_N n with
  | Some x => x
  | None => x00
  end.

Definition utf8_encode_char (c : N) : bytes :=
  if (c <? 0x80)%N then [byte_of_N c]
  else if (c <? 0x800)%N then
    [byte_of_N (0xC0 + c / 0x40); byte_of_N (0x80 + c mod 0x40)]
  else if (c <? 0x10000)%N then
    [byte_of_N (0xE0 + c / 0x1000);
     byte_of_N (0x80 + (c / 0x40) mod 0x40);
     byte_of_N (0x80 + c mod 0x40)]
  else
    [byte_of_N (0xF0 + c / 0x40000);
     byte_of_N (0x80 + (c / 0x1000) mod 0x40);
     byte_of_N (0x80 + (c / 0x40) mod 0x40);
     byte_of_N (0x80 + c mod 0x40)].

Definition utf8_encode (t : text) : bytes := flat_map utf8_encode_char t.

(** A Unicode scalar value: a code point up to U+10FFFF that is no
    surrogate. *)
Definition is_scalar (c : N) : bool :=
  ((c <=? 0x10FFFF) && negb (between 0xD800 0xDFFF c))%N.

(** The first character of a byte string and the bytes after it, as
    [utf8_decode] reads them. *)
Definition decode_one (bs : bytes) : option (N * bytes) :=
  match bs with
  | [] => None
  | b0 :: r0 =>
    let x0 := Byte.to_N b0 in
    if (x0 <? 0x80)%N then Some (x0, r0)
    else if (x0 <? 0xC2)%N then None
    else if (x0 <? 0xE0)%N then
      match r0 with
      | b1 :: r1 =>
        let x1 := Byte.to_N b1 in
        if continuation x1
        then Some (((x0 - 0xC0) * 0x40 + (x1 - 0x80))%N, r1)
        else None
      | _ => None
      end
    else if (x0 <? 0xF0)%N then
      match r0 with
      | b1 :: b2 :: r2 =>
        let x1 := Byte.to_N b1 in
        let x2 := Byte.to_N b2 in
        let lo := if (x0 =? 0xE0)%N then 0xA0%N else 0x80%N in
        let hi := if (x0 =? 0xED)%N then 0x9F%N else 0xBF%N in
        if between lo hi x1 && continuation x2
        then Some (((x0 - 0xE0) * 0x1000 + (x1 - 0x80) * 0x40
                    + (x2 - 0x80))%N, r2)
        else None
      | _ => None
      end
    else if (x0 <? 0xF5)%N then
      match r0 with
      | b1 :: b2 :: b3 :: r3 =>
        let x1 := Byte.to_N b1 in
        let x2 := Byte.to_N b2 in
        let x3 := Byte.to_N b3 in
        let lo := if (x0 =? 0xF0)%N then 0x90%N else 0x80%N in
        let hi := if (x0 =? 0xF4)%N then 0x8F%N else 0xBF%N in
        if between lo hi x1 && continuation x2 && continuation x3
        then Some (((x0 - 0xF0) * 0x40000 + (x1 - 0x80) * 0x1000
                    + (x2 - 0x80) * 0x40 + (x3 - 0x80))%N, r3)
        else None
      | _ => None
      end
    else None
  end.

(** What [parse_int_literal] does on a string of ASCII characters that
    begins with a digit, and on such a string after a minus sign. *)
Definition after_scan (negative : bool) (s : string) : option (Z * N) :=
  match scan_digits s false 0%N 0%Z with
  | None => None
  | Some (rest, prev_us, digits, acc) =>
    if prev_us then None
    else if (digits =? 0)%N then None
    else if is_empty (skip_space rest)
         then Some (if negative then (- acc)%Z else acc, digits)
         else None
  end.

(** ** Running the handlers *)

Arguments b s : simpl never.
Arguments latin1 s : simpl never.
Arguments status_line code : simpl never.
Arguments header_line keyword value : simpl never.

Lemma for_each_print (hs : list (string * string)) :
  forall f hb wf so se,
    for_each hs (fun '(header, value) =>
      print (latin1 ("  " ++ header ++ ": " ++ value)))
      (mkWorld f hb wf so se)
    = (Returned tt, mkWorld f hb wf (so ++ map header_text hs) se).
Proof.
  induction hs as [|[h v] r IH]; intros; simpl.
  - unfold ret. rewrite app_nil_r. reflexivity.
  - unfold bind at 1. simpl. rewrite IH.
    rewrite <- app_assoc. reflexivity.
Qed.

Lemma set_headers_run (e : environ) :
  forall f hb wf so se,
    _set_headers e (mkWorld f hb wf so se)
    = (Returned tt,
       mkWorld f [] (wf ++ List.concat hb
                        ++ b (status_line 200)
                        ++ b (header_line "Server" (version_string e))
                        ++ b (header_line "Date" (date_time_string e))
                        ++ b (header_line "Content-type" "text/plain")
                        ++ b CRLF)
               so (se ++ [log_request 200])).
Proof.
  intros.
  unfold _set_headers, send_response, send_response_only, send_header,
    end_headers, flush_headers, buffer_append, log, bind.
  cbn [rfile headers_buffer wfile stdout stderr].
  repeat rewrite concat_app. cbn [List.concat].
  repeat rewrite app_nil_r. repeat rewrite <- app_assoc. reflexivity.
Qed.

Lemma on_the_wire_acknowledgement (e : environ) (body : string) :
  on_the_wire (acknowledgement e body) = head e ++ b body.
Proof.
  unfold on_the_wire, acknowledgement, head.
  cbn [status reason fields content map fst snd List.concat].
  repeat rewrite app_nil_r. repeat rewrite <- app_assoc. reflexivity.
Qed.

Lemma prints_preamble (verb : string) (self : request) (k : M unit) :
  forall f hb wf so se,
    (print (latin1 (LF ++ "===== " ++ verb ++ " REQUEST ======")) ;;
     print (latin1 ("Path: " ++ path self)) ;;
     print (latin1 "Headers:") ;;
     for_each (items (headers self)) (fun '(header, value) =>
       print (latin1 ("  " ++ header ++ ": " ++ value))) ;;
     k) (mkWorld f hb wf so se)
    = k (mkWorld f hb wf (so ++ preamble verb self) se).
Proof.
  intros. unfold bind at 1 2 3 4, print at 1 2 3, items.
  cbn [rfile headers_buffer wfile stdout stderr].
  rewrite for_each_print. unfold preamble.
  repeat rewrite <- app_assoc. reflexivity.
Qed.

Lemma do_GET_run (e : environ) (self : request) :
  forall f hb wf so se,
    do_GET e self (mkWorld f hb wf so se)
    = (Returned tt,
       mkWorld f [] (wf ++ List.concat hb ++ head e ++ b "GET request received")
               (so ++ preamble "GET" self) (se ++ [log_request 200])).
Proof.
  intros. unfold do_GET.
  change (LF ++ "===== GET REQUEST ======")%string
    with (LF ++ "===== " ++ "GET" ++ " REQUEST ======")%string.
  rewrite prints_preamble.
  unfold bind. rewrite set_headers_run. unfold wfile_write, head.
  cbn [rfile headers_buffer wfile stdout stderr].
  repeat rewrite <- app_assoc. reflexivity.
Qed.

Lemma log_and_reply_decoded (e : environ) (self : request) (post_data : bytes)
      (body : text) :
  utf8_decode post_data = Some body ->
  forall f hb wf so se,
    log_and_reply e self post_data (mkWorld f hb wf so se)
    = (Returned tt,
       mkWorld f []
               (wf ++ List.concat hb ++ head e ++ b "POST request received")
               (so ++ preamble "POST" self ++ [latin1 ("Body:" ++ LF) ++ body])
               (se ++ [log_request 200])).
Proof.
  intros D f hb wf so se. unfold log_and_reply.
  change (LF ++ "===== POST REQUEST ======")%string
    with (LF ++ "===== " ++ "POST" ++ " REQUEST ======")%string.
  rewrite prints_preamble.
  unfold bind, decode. rewrite D. unfold ret, print.
  cbn [rfile headers_buffer wfile stdout stderr].
  rewrite set_headers_run. unfold wfile_write, head.
  cbn [rfile headers_buffer wfile stdout stderr].
  repeat rewrite <- app_assoc. reflexivity.
Qed.

Lemma log_and_reply_undecodable (e : environ) (self : request)
      (post_data : bytes) :
  utf8_decode post_data = None ->
  forall f hb wf so se,
    log_and_reply e self post_data (mkWorld f hb wf so se)
    = (Raised UnicodeDecodeError,
       mkWorld f hb wf (so ++ preamble "POST" self) se).
Proof.
  intros D f hb wf so se. unfold log_and_reply.
  change (LF ++ "===== POST REQUEST ======")%string
    with (LF ++ "===== " ++ "POST" ++ " REQUEST ======")%string.
  rewrite prints_preamble.
  unfold bind, decode. rewrite D. reflexivity.
Qed.

Lemma do_POST_unfold (e : environ) (self : request) :
  do_POST e self
  = (content_length <-
       py_int (get (headers self) "Content-Length" (PyInt 0)) ;;
     post_data <- rfile_read content_length ;;
     log_and_reply e self post_data).
Proof. reflexivity. Qed.

Lemma do_POST_no_length (e : environ) (self : request) (w : world) :
  int_value (get (headers self) "Content-Length" (PyInt 0)) = None ->
  do_POST e self w = (Raised ValueError, w).
Proof.
  intros I. rewrite do_POST_unfold. unfold bind at 1, py_int.
  rewrite I. reflexivity.
Qed.

Lemma do_POST_read (e : environ) (self : request) (n : Z) :
  int_value (get (headers self) "Content-Length" (PyInt 0)) = Some n ->
  forall f hb wf so se,
    do_POST e self (mkWorld f hb wf so se)
    = match read f n with
      | (Returned post_data, f') =>
        log_and_reply e self post_data (mkWorld f' hb wf so se)
      | (Raised x, f') => (Raised x, mkWorld f' hb wf so se)
      | (Blocked, f') => (Blocked, mkWorld f' hb wf so se)
      end.
Proof.
  intros I f hb wf so se. rewrite do_POST_unfold.
  unfold bind at 1, py_int. rewrite I. unfold ret.
  unfold bind at 1, rfile_read. cbn [rfile headers_buffer wfile stdout stderr].
  destruct (read f n) as [[d|x|] f']; reflexivity.
Qed.

(** *** Facts about [read] and [get] *)

Lemma read_nothing (f : stream) : read f 0 = (Returned [], f).
Proof. destruct f as [p fin]. reflexivity. Qed.

Lemma read_body (body rest : bytes) (fin : bool) :
  (Z.of_nat (List.length body) <= PY_SSIZE_T_MAX)%Z ->
  read (mkStream (body ++ rest) fin) (Z.of_nat (List.length body))
  = (Returned body, mkStream rest fin).
Proof.
  intros Fit. unfold read. cbn [pending eof].
  assert (Pos : (0 < PY_SSIZE_T_MAX)%Z) by reflexivity.
  destruct (Z.ltb_spec (Z.of_nat (List.length body)) (- PY_SSIZE_T_MAX - 1));
    [lia|].
  destruct (Z.ltb_spec PY_SSIZE_T_MAX (Z.of_nat (List.length body))); [lia|].
  cbn [orb].
  destruct (Z.ltb_spec (Z.of_nat (List.length body)) (-1)); [lia|].
  destruct (Z.eqb_spec (Z.of_nat (List.length body)) (-1)); [lia|].
  rewrite Nat2Z.id.
  destruct (Nat.leb_spec (List.length body) (List.length (body ++ rest)))
    as [_|L]; [|rewrite length_app in L; lia].
  rewrite firstn_app, Nat.sub_diag, firstn_all, app_nil_r.
  rewrite skipn_app, Nat.sub_diag, skipn_all. reflexivity.
Qed.

Lemma read_returned_prefix (f f' : stream) (n : Z) (data : bytes) :
  read f n = (Returned data, f') -> pending f = data ++ pending f'.
Proof.
  unfold read.
  destruct ((n <? - PY_SSIZE_T_MAX - 1) || (PY_SSIZE_T_MAX <? n))%Z;
    [discriminate|].
  destruct (n <? -1)%Z; [discriminate|].
  destruct (n =? -1)%Z.
  - destruct (eof f); [|discriminate].
    intros E. inversion E. cbn [pending]. now rewrite app_nil_r.
  - destruct (Z.to_nat n <=? List.length (pending f))%nat.
    + intros E. inversion E. cbn [pending]. now rewrite firstn_skipn.
    + destruct (eof f); [|discriminate].
      intros E. inversion E. cbn [pending]. now rewrite app_nil_r.
Qed.

Lemma get_absent (m : HTTPMessage) (name : string) (failobj : pyval) :
  has_header m name = false -> get m name failobj = failobj.
Proof.
  induction m as [|[k v] r IH]; cbn [has_header existsb get fst]; intros H.
  - reflexivity.
  - apply orb_false_iff in H. destruct H as [H1 H2].
    rewrite H1. apply IH. exact H2.
Qed.

(** From [m w = (o, w')] to the two equations [_ = o] and [_ = w'],
    substituted. *)
Ltac split_run R :=
  let Ho := fresh "Ho" in
  let Hw := fresh "Hw" in
  pose proof (f_equal fst R) as Ho;
  pose proof (f_equal snd R) as Hw;
  cbn [fst snd] in Ho, Hw; clear R; subst.

Lemma do_POST_returned (e : environ) (self : request) :
  forall f hb wf so se w,
    do_POST e self (mkWorld f hb wf so se) = (Returned tt, w) ->
    exists n post_data f' body,
      int_value (get (headers self) "Content-Length" (PyInt 0)) = Some n
      /\ read f n = (Returned post_data, f')
      /\ utf8_decode post_data = Some body.
Proof.
  intros f hb wf so se w R.
  destruct (int_value (get (headers self) "Content-Length" (PyInt 0)))
    as [n|] eqn:I.
  - rewrite (do_POST_read e self n I) in R.
    destruct (read f n) as [[d|x|] f'] eqn:Rd; try discriminate.
    destruct (utf8_decode d) as [body|] eqn:D.
    + exists n, d, f', body. auto.
    + rewrite (log_and_reply_undecodable e self d D) in R. discriminate.
  - rewrite (do_POST_no_length e self _ I) in R. discriminate.
Qed.

(** ** The properties of the specification *)

(** C1: every GET request, whatever its path and headers, is answered with
    status 200, a Content-Type header field of value [text/plain] (found
    under that name without regard to case, as header names are compared) and
    the body [GET request received]. *)
Theorem get_acknowledged (e : environ) (self : request) (input : stream)
        (out : list text) (err : list diagnostic) :
  let sent_fields := [("Server", version_string e);
                      ("Date", date_time_string e);
                      ("Content-type", "text/plain")] in
  let (o, w) := do_GET e self (mkWorld input [] [] out err) in
  o = Returned tt
  /\ wfile w = on_the_wire
                 (mkResponse 200 "OK" sent_fields (b "GET request received"))
  /\ get sent_fields "Content-Type" (PyInt 0) = PyStr "text/plain".
Proof.
  cbv zeta. rewrite do_GET_run. cbn [List.concat app].
  repeat split.
  symmetry. apply (on_the_wire_acknowledgement e "GET request received").
Qed.

(** C2: a POST request whose Content-Length header reads as the length of
    its body [B], and whose body is UTF-8 for the text [body], has
    [Body:], a line break and [body] printed as its last console line, and
    is answered with the body [POST request received]; the handler takes
    exactly [B] from the input.  ([B] is a byte string of Python: its
    length fits a machine word.) *)
Theorem post_body_logged (e : environ) (self : request) (v : string)
        (B rest : bytes) (fin : bool) (body : text)
        (out : list text) (err : list diagnostic) :
  (Z.of_nat (List.length B) <= PY_SSIZE_T_MAX)%Z ->
  get (headers self) "Content-Length" (PyInt 0) = PyStr v ->
  int_of_str v = Some (Z.of_nat (List.length B)) ->
  utf8_decode B = Some body ->
  let (o, w) := do_POST e self (mkWorld (mkStream (B ++ rest) fin) [] [] out err) in
  o = Returned tt
  /\ rfile w = mkStream rest fin
  /\ last (stdout w) [] = latin1 ("Body:" ++ LF) ++ body
  /\ wfile w = on_the_wire
                 (mkResponse 200 "OK"
                             [("Server", version_string e);
                              ("Date", date_time_string e);
                              ("Content-type", "text/plain")]
                             (b "POST request received")).
Proof.
  intros Fit G I D.
  assert (I' : int_value (get (headers self) "Content-Length" (PyInt 0))
               = Some (Z.of_nat (List.length B))) by (rewrite G; exact I).
  rewrite (do_POST_read e self _ I'), (read_body _ _ _ Fit).
  rewrite (log_and_reply_decoded e self B body D).
  cbn [rfile wfile stdout List.concat app].
  repeat split.
  - rewrite app_assoc. apply last_last.
  - symmetry. apply (on_the_wire_acknowledgement e "POST request received").
Qed.

(** C5: a POST request without any Content-Length header and a POST
    request whose Content-Length header is [0] are handled alike: the
    handler returns (the read does not wait, whatever the state of the
    input), takes no byte from the input, prints an empty body and sends the
    same response. *)
Theorem post_without_length (e : environ) (self self0 : request)
        (input : stream) (out : list text) (err : list diagnostic) :
  has_header (headers self) "Content-Length" = false ->
  get (headers self0) "Content-Length" (PyInt 0) = PyStr "0" ->
  let reply := on_the_wire
                 (mkResponse 200 "OK"
                             [("Server", version_string e);
                              ("Date", date_time_string e);
                              ("Content-type", "text/plain")]
                             (b "POST request received")) in
  do_POST e self (mkWorld input [] [] out err)
  = (Returned tt,
     mkWorld input [] reply
             (out ++ preamble "POST" self ++ [latin1 ("Body:" ++ LF) ++ latin1 ""])
             (err ++ [log_request 200]))
  /\ do_POST e self0 (mkWorld input [] [] out err)
     = (Returned tt,
        mkWorld input [] reply
                (out ++ preamble "POST" self0 ++ [latin1 ("Body:" ++ LF) ++ latin1 ""])
                (err ++ [log_request 200])).
Proof.
  intros A Z0. cbv zeta.
  assert (I : int_value (get (headers self) "Content-Length" (PyInt 0))
              = Some 0%Z) by (rewrite (get_absent _ _ _ A); reflexivity).
  assert (I0 : int_value (get (headers self0) "Content-Length" (PyInt 0))
               = Some 0%Z) by (rewrite Z0; reflexivity).
  rewrite (do_POST_read e self _ I), (do_POST_read e self0 _ I0), read_nothing.
  rewrite (log_and_reply_decoded e self [] [] eq_refl).
  rewrite (log_and_reply_decoded e self0 [] [] eq_refl).
  cbn [List.concat app].
  change (on_the_wire _)
    with (on_the_wire (acknowledgement e "POST request received")).
  rewrite on_the_wire_acknowledgement. split; reflexivity.
Qed.

(** C6: the console lines of a request come in this order: the section
    marker, the path, the [Headers:] marker, one line per header field in
    the order received and, for a POST request that is handled to the end,
    the [Body:] marker followed by the UTF-8 text of the bytes taken from
    the input. *)
Theorem console_order (e : environ) (self : request) (input : stream)
        (out : list text) (err : list diagnostic) :
  stdout (snd (do_GET e self (mkWorld input [] [] out err)))
  = out ++ [latin1 (LF ++ "===== GET REQUEST ======");
            latin1 ("Path: " ++ path self);
            latin1 "Headers:"]
        ++ map header_text (headers self)
  /\ forall w,
      do_POST e self (mkWorld input [] [] out err) = (Returned tt, w) ->
      exists post_data body,
        pending input = post_data ++ pending (rfile w)
        /\ utf8_decode post_data = Some body
        /\ stdout w
           = out ++ [latin1 (LF ++ "===== POST REQUEST ======");
                     latin1 ("Path: " ++ path self);
                     latin1 "Headers:"]
                 ++ map header_text (headers self)
                 ++ [latin1 ("Body:" ++ LF) ++ body].
Proof.
  split.
  - rewrite do_GET_run. reflexivity.
  - intros w R.
    destruct (do_POST_returned e self _ _ _ _ _ _ R)
      as (n & d & f' & body & I & Rd & D).
    rewrite (do_POST_read e self n I), Rd in R.
    rewrite (log_and_reply_decoded e self d body D) in R.
    inversion R; subst w; clear R. cbn [rfile stdout].
    exists d, body. repeat split.
    + apply (read_returned_prefix _ _ _ _ Rd).
    + exact D.
Qed.

(** C7: the header lines on the console are the header fields as received:
    the line at position [i] after the [Headers:] marker is the line of the
    [i]-th field, one line for each field, also when a name occurs more than
    once.  For POST this holds whenever the handler gets as far as printing,
    that is, when it returns or fails in decoding the body. *)
Theorem headers_logged_as_received (e : environ) (self : request)
        (input : stream) (out : list text) (err : list diagnostic) :
  let logged_fields (w : world) :=
    firstn (List.length (headers self))
           (skipn (List.length out + 3) (stdout w)) in
  (let w := snd (do_GET e self (mkWorld input [] [] out err)) in
   logged_fields w = map header_text (headers self)
   /\ List.length (stdout w) = (List.length out + 3 + List.length (headers self))%nat)
  /\ forall o w,
      do_POST e self (mkWorld input [] [] out err) = (o, w) ->
      o = Returned tt \/ o = Raised UnicodeDecodeError ->
      logged_fields w = map header_text (headers self).
Proof.
  assert (P : forall verb tail,
             firstn (List.length (headers self))
                    (skipn (List.length out + 3)
                           (out ++ (preamble verb self ++ tail)))
             = map header_text (headers self)).
  { intros verb tail. unfold preamble.
    rewrite skipn_app, skipn_all2 by lia.
    replace (List.length out + 3 - List.length out)%nat with 3%nat by lia.
    cbn [app skipn].
    rewrite firstn_app, length_map, Nat.sub_diag. cbn [firstn].
    rewrite app_nil_r.
    rewrite <- (length_map header_text). apply firstn_all. }
  cbv zeta. split.
  - rewrite do_GET_run. cbn [snd stdout]. split.
    + rewrite <- (app_nil_r (preamble "GET" self)). apply P.
    + unfold preamble. rewrite !length_app, length_map. cbn [List.length]. lia.
  - intros o w R Ho.
    destruct (int_value (get (headers self) "Content-Length" (PyInt 0)))
      as [n|] eqn:I.
    + rewrite (do_POST_read e self n I) in R.
      destruct (read input n) as [[d|x|] f'] eqn:Rd.
      * destruct (utf8_decode d) as [body|] eqn:D.
        -- rewrite (log_and_reply_decoded e self d body D) in R.
           split_run R. cbn [stdout]. apply P.
        -- rewrite (log_and_reply_undecodable e self d D) in R.
           split_run R. cbn [stdout].
           rewrite <- (app_nil_r (preamble "POST" self)). apply P.
      * split_run R. destruct Ho as [Ho|Ho]; [discriminate|].
        unfold read in Rd.
        destruct ((n <? - PY_SSIZE_T_MAX - 1) || (PY_SSIZE_T_MAX <? n))%Z;
          [inversion Rd; subst; discriminate|].
        destruct (n <? -1)%Z; [inversion Rd; subst; discriminate|].
        destruct (n =? -1)%Z; [destruct (eof input); discriminate|].
        destruct (Z.to_nat n <=? List.length (pending input))%nat;
          [discriminate|destruct (eof input); discriminate].
      * split_run R. destruct Ho; discriminate.
    + rewrite (do_POST_no_length e self _ I) in R.
      split_run R. destruct Ho; discriminate.
Qed.

(** C9: when the bytes that [do_POST] has read are not UTF-8, nothing has
    been written to the client at the moment of the failure: the handler
    raises [UnicodeDecodeError] with the output stream and the header buffer
    as they were on entry. *)
Theorem decode_failure_writes_nothing (e : environ) (self : request) (n : Z)
        (post_data : bytes) (f f' : stream) (hb : list bytes) (wf : bytes)
        (so : list text) (se : list diagnostic) :
  int_value (get (headers self) "Content-Length" (PyInt 0)) = Some n ->
  read f n = (Returned post_data, f') ->
  utf8_decode post_data = None ->
  let (o, w) := do_POST e self (mkWorld f hb wf so se) in
  o = Raised UnicodeDecodeError /\ wfile w = wf /\ headers_buffer w = hb.
Proof.
  intros I Rd D.
  rewrite (do_POST_read e self n I), Rd.
  rewrite (log_and_reply_undecodable e self post_data D).
  repeat split.
Qed.

(** *** The listener and failing handlers *)

Lemma on_the_wire_not_nil (r : response) : on_the_wire r <> [].
Proof. unfold on_the_wire, b. cbn. discriminate. Qed.

Lemma serve_after_raise (c : connection) (rest : list connection)
      (out : list text) (err : list diagnostic) (x : exn) (w : world) :
  handle_one_request c (accept c out err) = (Raised x, w) ->
  serve_forever (c :: rest) out err
  = let s := serve_forever rest (stdout w) (stderr w ++ [handle_error x]) in
    mkServed (wfile w :: replies s) (console s) (errors s) (stuck s).
Proof. intros H. cbn [serve_forever]. rewrite H. reflexivity. Qed.

Lemma parse_failure_is_value_error (v : string) :
  parse_int_literal v = None -> int_of_str v = None.
Proof. intros H. unfold int_of_str. rewrite H. reflexivity. Qed.

(** C3, as the code has it: a POST request whose Content-Length header is
    not an integer literal is not handled as one with an empty body.  The
    handler raises [ValueError] at once: it has read no byte, printed no
    line and written nothing to the client.  The failure ends that request
    only: the listener reports it on the error stream and goes on to the
    following connections. *)
Theorem malformed_length_raises (c : connection) (v : string)
        (rest : list connection) (out : list text) (err : list diagnostic) :
  command c = POST ->
  get (headers (conn_request c)) "Content-Length" (PyInt 0) = PyStr v ->
  parse_int_literal v = None ->
  handle_one_request c (accept c out err)
  = (Raised ValueError, accept c out err)
  /\ serve_forever (c :: rest) out err
     = let s := serve_forever rest out (err ++ [handle_error ValueError]) in
       mkServed ([] :: replies s) (console s) (errors s) (stuck s).
Proof.
  intros Cm G P.
  assert (H : handle_one_request c (accept c out err)
              = (Raised ValueError, accept c out err)).
  { unfold handle_one_request. rewrite Cm. apply do_POST_no_length.
    rewrite G. apply parse_failure_is_value_error, P. }
  split; [exact H|]. rewrite (serve_after_raise _ _ _ _ _ _ H). reflexivity.
Qed.

(** C4, as the code has it: a POST request whose body bytes, as read, are
    not UTF-8 gets no response at all, so no response of class 400.  The
    handler raises [UnicodeDecodeError] after it has printed the section
    marker, the path and the headers; nothing has been written to the
    client.  The listener reports the exception on the error stream and
    goes on to the following connections. *)
Theorem undecodable_body_raises (c : connection) (n : Z) (post_data : bytes)
        (f' : stream) (rest : list connection) (out : list text)
        (err : list diagnostic) :
  command c = POST ->
  int_value (get (headers (conn_request c)) "Content-Length" (PyInt 0))
  = Some n ->
  read (conn_input c) n = (Returned post_data, f') ->
  utf8_decode post_data = None ->
  handle_one_request c (accept c out err)
  = (Raised UnicodeDecodeError,
     mkWorld f' [] [] (out ++ preamble "POST" (conn_request c)) err)
  /\ serve_forever (c :: rest) out err
     = let s := serve_forever rest (out ++ preamble "POST" (conn_request c))
                              (err ++ [handle_error UnicodeDecodeError]) in
       mkServed ([] :: replies s) (console s) (errors s) (stuck s).
Proof.
  intros Cm I Rd D.
  assert (H : handle_one_request c (accept c out err)
              = (Raised UnicodeDecodeError,
                 mkWorld f' [] [] (out ++ preamble "POST" (conn_request c))
                         err)).
  { unfold handle_one_request, accept. rewrite Cm.
    rewrite (do_POST_read _ _ n I), Rd.
    apply log_and_reply_undecodable, D. }
  split; [exact H|]. rewrite (serve_after_raise _ _ _ _ _ _ H). reflexivity.
Qed.


(** C10, as the code has it: a Content-Length that reads as a negative
    integer is handed to the read as it is.  With [-1] the read takes the
    whole remaining input, once the client has closed its side, and waits
    for that as long as the connection stays open.  A count below [-1] is
    refused by the buffered reader: the handler raises [ValueError]
    ([OverflowError] when the count does not fit a machine word) having
    read no byte, printed no line and written nothing. *)
Theorem negative_length (e : environ) (self : request) (n : Z)
        (f : stream) (hb : list bytes) (wf : bytes) (so : list text)
        (se : list diagnostic) :
  int_value (get (headers self) "Content-Length" (PyInt 0)) = Some n ->
  (n < 0)%Z ->
  do_POST e self (mkWorld f hb wf so se)
  = if (n =? -1)%Z then
      if eof f
      then log_and_reply e self (pending f)
                         (mkWorld (mkStream [] true) hb wf so se)
      else (Blocked, mkWorld f hb wf so se)
    else (Raised (if (n <? - PY_SSIZE_T_MAX - 1)%Z
                  then OverflowError else ValueError),
          mkWorld f hb wf so se).
Proof.
  intros I Neg. rewrite (do_POST_read e self n I). unfold read.
  assert (Pos : (0 < PY_SSIZE_T_MAX)%Z) by reflexivity.
  destruct (Z.ltb_spec PY_SSIZE_T_MAX n) as [|_]; [lia|].
  rewrite orb_false_r.
  destruct (Z.eqb_spec n (-1)) as [->|Ne].
  - change (-1 <? - PY_SSIZE_T_MAX - 1)%Z with false.
    change (-1 <? -1)%Z with false. cbv iota.
    destruct (eof f); reflexivity.
  - destruct (Z.ltb_spec n (- PY_SSIZE_T_MAX - 1)); [reflexivity|].
    destruct (Z.ltb_spec n (-1)) as [_|Ge]; [reflexivity|lia].
Qed.

(** ** The claims that fail, at a request *)

(** C3 fails at [Content-Length: abc]: the header value is no integer
    literal, yet the request is not handled as one with an empty body; the
    handler raises. *)
Lemma malformed_length_not_empty_body :
  let self := conn_request post_malformed in
  let w0 := accept post_malformed [] [] in
  parse_int_literal "abc" = None
  /\ get (headers self) "Content-Length" (PyInt 0) = PyStr "abc"
  /\ do_POST an_environ self w0 <> log_and_reply an_environ self [] w0
  /\ fst (do_POST an_environ self w0) = Raised ValueError.
Proof.
  cbv zeta. repeat split.
  intros H. apply (f_equal fst) in H. vm_compute in H. discriminate H.
Qed.

(** C4 fails at a body of the one byte 0xFF: what the client gets is not a
    response of class 400; it gets no byte at all. *)
Lemma undecodable_body_unanswered :
  let w := snd (handle_one_request post_undecodable
                                   (accept post_undecodable [] [])) in
  utf8_decode (pending (conn_input post_undecodable)) = None
  /\ wfile w = []
  /\ ~ replies_with_class 4 (wfile w).
Proof.
  cbv zeta. repeat split.
  intros [r [_ H]]. apply (on_the_wire_not_nil r). symmetry. exact H.
Qed.


(** C10 fails at [Content-Length: -5]: the negative count does not make
    the read take the rest of the input ([hello], then end of stream); the
    read refuses the count and the handler raises. *)
Lemma minus_five_not_read_to_end :
  let self := conn_request post_minus_five in
  let w0 := accept post_minus_five [] [] in
  int_of_str "-5" = Some (-5)%Z
  /\ do_POST an_environ self w0
     <> log_and_reply an_environ self (pending (conn_input post_minus_five))
                      (mkWorld (mkStream [] true) [] [] [] [])
  /\ do_POST an_environ self w0 = (Raised ValueError, w0).
Proof.
  cbv zeta. repeat split.
  intros H. apply (f_equal fst) in H. vm_compute in H. discriminate H.
Qed.

(** ** The properties at the sample requests *)

Lemma post_body_logged_webhook :
  let self := conn_request post_webhook in
  let body := latin1 json_body in
  ((Z.of_nat (List.length (b json_body)) <= PY_SSIZE_T_MAX)%Z
   /\ get (headers self) "Content-Length" (PyInt 0) = PyStr "7"
   /\ int_of_str "7" = Some (Z.of_nat (List.length (b json_body)))
   /\ utf8_decode (b json_body) = Some body)
  /\ let (o, w) := do_POST an_environ self
                           (mkWorld (mkStream (b json_body ++ []) false)
                                    [] [] [] []) in
     o = Returned tt
     /\ rfile w = mkStream [] false
     /\ last (stdout w) [] = latin1 ("Body:" ++ LF) ++ body
     /\ wfile w = on_the_wire
                    (mkResponse 200 "OK"
                                [("Server", version_string an_environ);
                                 ("Date", date_time_string an_environ);
                                 ("Content-type", "text/plain")]
                                (b "POST request received")).
Proof.
  cbv zeta. split; [repeat split; discriminate|].
  apply (post_body_logged an_environ (conn_request post_webhook) "7"
                          (b json_body) [] false (latin1 json_body) [] []);
    [discriminate|reflexivity..].
Defined.

Lemma post_without_length_sample :
  (has_header (headers post_bare) "Content-Length" = false
   /\ get (headers post_zero) "Content-Length" (PyInt 0) = PyStr "0")
  /\ fst (do_POST an_environ post_bare (mkWorld (mkStream [] false) [] [] [] []))
     = Returned tt
  /\ snd (do_POST an_environ post_zero (mkWorld (mkStream [] false) [] [] [] []))
     = mkWorld (mkStream [] false) []
               (on_the_wire (acknowledgement an_environ "POST request received"))
               ([] ++ preamble "POST" post_zero
                   ++ [latin1 ("Body:" ++ LF) ++ latin1 ""])
               ([] ++ [log_request 200]).
Proof.
  split; [split; reflexivity|].
  destruct (post_without_length an_environ post_bare post_zero
                                (mkStream [] false) [] [] eq_refl eq_refl)
    as [H H0].
  rewrite H, H0. split; reflexivity.
Defined.

Lemma console_order_webhook :
  let self := conn_request post_webhook in
  let w := snd (handle_one_request post_webhook (accept post_webhook [] [])) in
  do_POST an_environ self (mkWorld (conn_input post_webhook) [] [] [] [])
  = (Returned tt, w)
  /\ exists post_data body,
      pending (conn_input post_webhook) = post_data ++ pending (rfile w)
      /\ utf8_decode post_data = Some body
      /\ stdout w
         = [] ++ [latin1 (LF ++ "===== POST REQUEST ======");
                  latin1 ("Path: " ++ path self);
                  latin1 "Headers:"]
              ++ map header_text (headers self)
              ++ [latin1 ("Body:" ++ LF) ++ body].
Proof.
  cbv zeta.
  assert (R : do_POST an_environ (conn_request post_webhook)
                      (mkWorld (conn_input post_webhook) [] [] [] [])
              = (Returned tt,
                 snd (handle_one_request post_webhook
                                         (accept post_webhook [] []))))
    by (vm_compute; reflexivity).
  split; [exact R|].
  exact (proj2 (console_order an_environ (conn_request post_webhook)
                              (conn_input post_webhook) [] []) _ R).
Defined.

Lemma headers_logged_repeated :
  let r := handle_one_request post_repeated (accept post_repeated [] []) in
  (fst r = Returned tt \/ fst r = Raised UnicodeDecodeError)
  /\ firstn 4 (skipn (0 + 3) (stdout (snd r)))
     = [latin1 "  X-A: 1"; latin1 "  x-a: 2"; latin1 "  X-A: 1";
        latin1 "  Content-Length: 2"].
Proof.
  cbv zeta.
  assert (R : do_POST an_environ (conn_request post_repeated)
                      (mkWorld (conn_input post_repeated) [] [] [] [])
              = (Returned tt,
                 snd (handle_one_request post_repeated
                                         (accept post_repeated [] []))))
    by (vm_compute; reflexivity).
  split; [left; reflexivity|].
  exact (proj2 (headers_logged_as_received
                  an_environ (conn_request post_repeated)
                  (conn_input post_repeated) [] [])
               _ _ R (or_introl eq_refl)).
Defined.

Lemma decode_failure_writes_nothing_sample :
  (int_value (get (headers (conn_request post_undecodable))
                  "Content-Length" (PyInt 0)) = Some 1%Z
   /\ read (conn_input post_undecodable) 1 = (Returned [xff], mkStream [] false)
   /\ utf8_decode [xff] = None)
  /\ let (o, w) := do_POST an_environ (conn_request post_undecodable)
                           (mkWorld (conn_input post_undecodable)
                                    [] [] [] []) in
     o = Raised UnicodeDecodeError /\ wfile w = [] /\ headers_buffer w = [].
Proof.
  split; [repeat split|].
  apply (decode_failure_writes_nothing
           an_environ (conn_request post_undecodable) 1 [xff]
           (conn_input post_undecodable) (mkStream [] false) [] [] [] []);
    reflexivity.
Defined.

Lemma malformed_length_raises_sample :
  (command post_malformed = POST
   /\ get (headers (conn_request post_malformed)) "Content-Length" (PyInt 0)
      = PyStr "abc"
   /\ parse_int_literal "abc" = None)
  /\ handle_one_request post_malformed (accept post_malformed [] [])
     = (Raised ValueError, accept post_malformed [] [])
  /\ serve_forever [post_malformed; get_status] [] []
     = let s := serve_forever [get_status] [] ([] ++ [handle_error ValueError]) in
       mkServed ([] :: replies s) (console s) (errors s) (stuck s).
Proof.
  split; [repeat split|].
  apply (malformed_length_raises post_malformed "abc" [get_status] [] []);
    reflexivity.
Defined.

Lemma undecodable_body_raises_sample :
  (command post_undecodable = POST
   /\ int_value (get (headers (conn_request post_undecodable))
                     "Content-Length" (PyInt 0)) = Some 1%Z
   /\ read (conn_input post_undecodable) 1
      = (Returned [xff], mkStream [] false)
   /\ utf8_decode [xff] = None)
  /\ handle_one_request post_undecodable (accept post_undecodable [] [])
     = (Raised UnicodeDecodeError,
        mkWorld (mkStream [] false) [] []
                ([] ++ preamble "POST" (conn_request post_undecodable)) [])
  /\ serve_forever [post_undecodable; get_status] [] []
     = let s := serve_forever
                  [get_status]
                  ([] ++ preamble "POST" (conn_request post_undecodable))
                  ([] ++ [handle_error UnicodeDecodeError]) in
       mkServed ([] :: replies s) (console s) (errors s) (stuck s).
Proof.
  split; [repeat split|].
  apply (undecodable_body_raises post_undecodable 1 [xff] (mkStream [] false)
                                 [get_status] [] []);
    reflexivity.
Defined.


Lemma negative_length_sample :
  let self := conn_request post_minus_one in
  (int_value (get (headers self) "Content-Length" (PyInt 0)) = Some (-1)%Z
   /\ (-1 < 0)%Z)
  /\ do_POST an_environ self (mkWorld (mkStream (b "hello") true) [] [] [] [])
     = log_and_reply an_environ self (b "hello")
                     (mkWorld (mkStream [] true) [] [] [] []).
Proof.
  cbv zeta. split; [split; reflexivity|].
  rewrite (negative_length an_environ (conn_request post_minus_one) (-1)
                           (mkStream (b "hello") true) [] [] [] []
                           eq_refl eq_refl).
  reflexivity.
Defined.

(** ** The scenarios of the specification *)

(** [GET /status] with [X-Test: 1], then [POST /webhook] with the JSON
    body: the console, the replies and the error stream of the listener. *)
Example scenarios :
  let s := run 8090 [get_status; post_webhook] in
  map as_string (console s)
  = ["Starting server on port 8090...";
     (LF ++ "===== GET REQUEST ======")%string;
     "Path: /status";
     "Headers:";
     "  X-Test: 1";
     (LF ++ "===== POST REQUEST ======")%string;
     "Path: /webhook";
     "Headers:";
     "  Host: localhost:8090";
     "  Content-Length: 7";
     ("Body:" ++ LF ++ json_body)%string]
  /\ replies s
     = [b ("HTTP/1.0 200 OK" ++ CRLF
           ++ "Server: BaseHTTP/0.6 Python/3.11.2" ++ CRLF
           ++ "Date: Tue, 03 Nov 2026 20:20:00 GMT" ++ CRLF
           ++ "Content-type: text/plain" ++ CRLF
           ++ CRLF
           ++ "GET request received");
        b ("HTTP/1.0 200 OK" ++ CRLF
           ++ "Server: BaseHTTP/0.6 Python/3.11.2" ++ CRLF
           ++ "Date: Tue, 03 Nov 2026 20:20:00 GMT" ++ CRLF
           ++ "Content-type: text/plain" ++ CRLF
           ++ CRLF
           ++ "POST request received")]
  /\ errors s = [log_request 200; log_request 200]
  /\ stuck s = false.
Proof. vm_compute. repeat split. Qed.

(** A request that fails does not stop the listener: the requests after
    it are served. *)
Example failing_requests_in_between :
  let s := run 8090 [post_malformed; get_status; post_undecodable;
                     post_minus_five; get_status] in
  map (fun sent => List.length sent) (replies s) = [0; 138; 0; 0; 138]%nat
  /\ errors s = [handle_error ValueError; log_request 200;
                 handle_error UnicodeDecodeError; handle_error ValueError;
                 log_request 200]
  /\ stuck s = false.
Proof. vm_compute. repeat split. Qed.

(** A POST request that announces more bytes than the client sends, on a
    connection that stays open, holds the listener up. *)
Example short_body_holds_up :
  let c := mkConnection an_environ POST
                        (mkRequest "/webhook" [("Content-Length", "8")])
                        (mkStream (b json_body) false) in
  stuck (run 8090 [c; get_status]) = true.
Proof. reflexivity. Qed.

(** [int] and [decode] on sample values, as CPython has them. *)
Example int_samples :
  map int_of_str ["7"; " 7 "; "+7"; "-7"; "007"; "1_0"; "-0"]
  = [Some 7; Some 7; Some 7; Some (-7); Some 7; Some 10; Some 0]%Z
  /\ map int_of_str [""; "  "; "+"; "- 7"; "_1"; "1_"; "1__0"; "0x10"; "7.0";
                     "1e3"; "+-5"; "abc"]
     = repeat None 12.
Proof. vm_compute. split; reflexivity. Qed.

Example decode_samples :
  map utf8_decode [[x68; xc3; xa9]; [xef; xbf; xbf]; [xf4; x8f; xbf; xbf];
                   [xed; x9f; xbf]; [xee; x80; x80]]
  = [Some [0x68; 0xE9]; Some [0xFFFF]; Some [0x10FFFF]; Some [0xD7FF];
     Some [0xE000]]%N
  /\ map utf8_decode [[xc0; x80]; [xed; xa0; x80]; [xf4; x90; x80; x80];
                      [xe0; x80; x80]; [xf0; x8f; x80; x80]; [xc2]; [x80];
                      [xf5; x80; x80; x80]; [xff]]
     = repeat None 9.
Proof. vm_compute. split; reflexivity. Qed.

(** ** More on the handlers *)

(** X1: [do_GET] returns from every state, without failing or waiting, and
    never reads from the connection: what follows the headers stays in the
    input.  It leaves the header buffer empty and one entry in the access
    log. *)
Theorem get_leaves_input (e : environ) (self : request) (w : world) :
  let (o, w') := do_GET e self w in
  o = Returned tt
  /\ rfile w' = rfile w
  /\ headers_buffer w' = []
  /\ stderr w' = stderr w ++ [log_request 200].
Proof. destruct w. rewrite do_GET_run. repeat split. Qed.

(** X2: the reply of [do_POST] is all or nothing.  Either the handler
    returns, the whole acknowledgement has been sent and the access log has
    its entry; or it does not return, not one byte has been sent or
    buffered and the access log has no entry. *)
Theorem post_reply_all_or_nothing (e : environ) (self : request)
        (input : stream) (out : list text) (err : list diagnostic) :
  let (o, w) := do_POST e self (mkWorld input [] [] out err) in
  (o = Returned tt
   /\ wfile w = on_the_wire (acknowledgement e "POST request received")
   /\ stderr w = err ++ [log_request 200])
  \/ (o <> Returned tt
      /\ wfile w = [] /\ headers_buffer w = [] /\ stderr w = err).
Proof.
  destruct (int_value (get (headers self) "Content-Length" (PyInt 0)))
    as [n|] eqn:I.
  - rewrite (do_POST_read e self n I).
    destruct (read input n) as [[d|x|] f'] eqn:Rd.
    + destruct (utf8_decode d) as [body|] eqn:D.
      * rewrite (log_and_reply_decoded e self d body D). left.
        cbn [wfile stderr List.concat app].
        rewrite on_the_wire_acknowledgement. repeat split.
      * rewrite (log_and_reply_undecodable e self d D). right.
        repeat split. discriminate.
    + right. repeat split. discriminate.
    + right. repeat split. discriminate.
  - rewrite (do_POST_no_length e self _ I). right. repeat split. discriminate.
Qed.

(** X3: a POST request that fails before its body is decoded leaves no
    trace: when [do_POST] stops on the Content-Length value or in the read
    (an exception other than [UnicodeDecodeError], or a read that waits),
    the state is as it was on entry, with nothing printed, read or sent. *)
Theorem post_early_failure_leaves_no_trace (e : environ) (self : request)
        (w w' : world) (o : outcome unit) :
  do_POST e self w = (o, w') ->
  o <> Returned tt ->
  o <> Raised UnicodeDecodeError ->
  w' = w.
Proof.
  intros R NR ND. destruct w as [f hb wf so se].
  destruct (int_value (get (headers self) "Content-Length" (PyInt 0)))
    as [n|] eqn:I.
  - rewrite (do_POST_read e self n I) in R.
    destruct (read f n) as [[d|x|] f'] eqn:Rd.
    + destruct (utf8_decode d) as [body|] eqn:D.
      * rewrite (log_and_reply_decoded e self d body D) in R.
        split_run R. now destruct NR.
      * rewrite (log_and_reply_undecodable e self d D) in R.
        split_run R. now destruct ND.
    + assert (f' = f); [|split_run R; reflexivity].
      unfold read in Rd.
      destruct ((n <? - PY_SSIZE_T_MAX - 1) || (PY_SSIZE_T_MAX <? n))%Z;
        [now inversion Rd|].
      destruct (n <? -1)%Z; [now inversion Rd|].
      destruct (n =? -1)%Z; [destruct (eof f); discriminate|].
      destruct (Z.to_nat n <=? List.length (pending f))%nat;
        [discriminate|destruct (eof f); discriminate].
    + assert (f' = f); [|split_run R; reflexivity].
      unfold read in Rd.
      destruct ((n <? - PY_SSIZE_T_MAX - 1) || (PY_SSIZE_T_MAX <? n))%Z;
        [discriminate|].
      destruct (n <? -1)%Z; [discriminate|].
      destruct (n =? -1)%Z; [destruct (eof f); now inversion Rd|].
      destruct (Z.to_nat n <=? List.length (pending f))%nat;
        [discriminate|destruct (eof f); now inversion Rd].
  - rewrite (do_POST_no_length e self _ I) in R. now split_run R.
Qed.

Lemma post_early_failure_at_minus_five :
  let r := do_POST an_environ (conn_request post_minus_five)
                   (accept post_minus_five [] []) in
  (fst r <> Returned tt /\ fst r <> Raised UnicodeDecodeError)
  /\ snd r = accept post_minus_five [] [].
Proof.
  cbv zeta.
  assert (R : do_POST an_environ (conn_request post_minus_five)
                      (accept post_minus_five [] [])
              = (Raised ValueError, accept post_minus_five [] []))
    by (vm_compute; reflexivity).
  rewrite R. cbn [fst snd].
  split; [split; discriminate|].
  apply (post_early_failure_leaves_no_trace _ _ _ _ _ R); discriminate.
Defined.










(** ** More on the listener *)

(** What a handler does is the same on every console: it adds its lines
    after those that are there. *)
Lemma handle_frame (c : connection) (out : list text)
      (err : list diagnostic) :
  let r0 := handle_one_request c (accept c [] []) in
  handle_one_request c (accept c out err)
  = (fst r0,
     mkWorld (rfile (snd r0)) (headers_buffer (snd r0)) (wfile (snd r0))
             (out ++ stdout (snd r0)) (err ++ stderr (snd r0))).
Proof.
  cbv zeta. unfold handle_one_request, accept. destruct (command c).
  - rewrite !do_GET_run. reflexivity.
  - destruct (int_value (get (headers (conn_request c)) "Content-Length"
                             (PyInt 0))) as [n|] eqn:I.
    + rewrite !(do_POST_read _ _ n I).
      destruct (read (conn_input c) n) as [[d|x|] f'] eqn:Rd.
      * destruct (utf8_decode d) as [body|] eqn:D.
        -- rewrite !(log_and_reply_decoded _ _ d body D). reflexivity.
        -- rewrite !(log_and_reply_undecodable _ _ d D).
           cbn [fst snd rfile headers_buffer wfile stdout stderr app].
           rewrite app_nil_r. reflexivity.
      * cbn [fst snd rfile headers_buffer wfile stdout stderr].
        rewrite !app_nil_r. reflexivity.
      * cbn [fst snd rfile headers_buffer wfile stdout stderr].
        rewrite !app_nil_r. reflexivity.
    + rewrite !(do_POST_no_length _ _ _ I).
      cbn [fst snd rfile headers_buffer wfile stdout stderr].
      rewrite !app_nil_r. reflexivity.
Qed.


Lemma serve_cons (c : connection) (rest : list connection)
      (out : list text) (err : list diagnostic) :
  let r0 := handle_one_request c (accept c [] []) in
  serve_forever (c :: rest) out err
  = match fst r0 with
    | Blocked =>
      mkServed [wfile (snd r0)] (out ++ request_lines c)
               (err ++ request_errors c) true
    | _ =>
      let s := serve_forever rest (out ++ request_lines c)
                             (err ++ request_errors c) in
      mkServed (wfile (snd r0) :: replies s) (console s) (errors s) (stuck s)
    end.
Proof.
  cbv zeta. cbn [serve_forever]. rewrite (handle_frame c out err).
  unfold request_lines, request_errors.
  destruct (fst (handle_one_request c (accept c [] []))) as [[]|x|];
    cbn [stdout stderr wfile]; rewrite ?app_nil_r, ?app_assoc; reflexivity.
Qed.




(** X10: the requests do not mix on the consoles.  When the listener has
    gone through its connections, standard output holds, after what was
    there, the lines of each request in the order of the connections, each
    block as the request prints it on an empty console; and so does the
    error stream. *)
Theorem console_is_sequence_of_requests (cs : list connection) :
  forall out err,
    stuck (serve_forever cs out err) = false ->
    console (serve_forever cs out err)
    = out ++ List.concat (map request_lines cs)
    /\ errors (serve_forever cs out err)
       = err ++ List.concat (map request_errors cs).
Proof.
  induction cs as [|c r IH]; intros out err S.
  - cbn. rewrite !app_nil_r. split; reflexivity.
  - rewrite serve_cons in *. cbv zeta in *.
    cbn [map List.concat]. rewrite !app_assoc.
    destruct (fst (handle_one_request c (accept c [] []))) as [[]|x|];
      cbn [stuck console errors] in *; try discriminate; apply IH, S.
Qed.

Lemma console_is_sequence_sample :
  stuck (serve_forever [post_undecodable; get_status] [] []) = false
  /\ console (serve_forever [post_undecodable; get_status] [] [])
     = [] ++ List.concat (map request_lines [post_undecodable; get_status])
  /\ errors (serve_forever [post_undecodable; get_status] [] [])
     = [] ++ List.concat (map request_errors [post_undecodable; get_status]).
Proof.
  split; [reflexivity|].
  apply (console_is_sequence_of_requests [post_undecodable; get_status] [] []).
  reflexivity.
Defined.



(** ** The decoding of the body *)

Lemma utf8_decode_step (bs : bytes) :
  utf8_decode bs
  = match bs with
    | [] => Some []
    | _ =>
      match decode_one bs with
      | Some (c, rest) => option_map (cons c) (utf8_decode rest)
      | None => None
      end
    end.
Proof.
  destruct bs as [|b0 r0]; [reflexivity|].
  cbn [utf8_decode decode_one]. cbv zeta.
  destruct (Byte.to_N b0 <? 0x80)%N; [reflexivity|].
  destruct (Byte.to_N b0 <? 0xC2)%N; [reflexivity|].
  destruct (Byte.to_N b0 <? 0xE0)%N.
  { destruct r0 as [|b1 r1]; [reflexivity|].
    destruct (continuation (Byte.to_N b1)); reflexivity. }
  destruct (Byte.to_N b0 <? 0xF0)%N.
  { destruct r0 as [|b1 [|b2 r2]]; try reflexivity.
    destruct (between _ _ (Byte.to_N b1) && continuation (Byte.to_N b2));
      reflexivity. }
  destruct (Byte.to_N b0 <? 0xF5)%N; [|reflexivity].
  destruct r0 as [|b1 [|b2 [|b3 r3]]]; try reflexivity.
  destruct (between _ _ (Byte.to_N b1) && continuation (Byte.to_N b2)
            && continuation (Byte.to_N b3)); reflexivity.
Qed.

Lemma byte_of_to_N (x : byte) : byte_of_N (Byte.to_N x) = x.
Proof. unfold byte_of_N. now rewrite Byte.of_to_N. Qed.

Lemma to_N_byte_of (n : N) : (n <= 255)%N -> Byte.to_N (byte_of_N n) = n.
Proof.
  intros H. unfold byte_of_N.
  destruct (Byte.of_N n) as [x|] eqn:E.
  - now apply Byte.to_of_N.
  - apply Byte.of_N_None_iff in E. lia.
Qed.

Lemma between_spec (lo hi x : N) :
  between lo hi x = true <-> (lo <= x <= hi)%N.
Proof.
  unfold between. rewrite andb_true_iff, !N.leb_le. tauto.
Qed.

(** The digits of a number in base 64. *)
Lemma base64_digits (q r : N) :
  (r < 0x40)%N ->
  ((q * 0x40 + r) / 0x40 = q /\ (q * 0x40 + r) mod 0x40 = r)%N.
Proof.
  intros H. split; symmetry.
  - apply (N.div_unique _ _ _ r); lia.
  - apply (N.mod_unique _ _ q); lia.
Qed.

Ltac bound_bytes :=
  repeat match goal with
         | x : byte |- _ =>
           lazymatch goal with
           | _ : (Byte.to_N x <= 255)%N |- _ => fail
           | _ => pose proof (Byte.to_N_bounded x)
           end
         end.

Ltac to_props :=
  repeat match goal with
         | H : (_ <? _)%N = true |- _ => apply N.ltb_lt in H
         | H : (_ <? _)%N = false |- _ => apply N.ltb_ge in H
         | H : (_ =? _)%N = true |- _ => apply N.eqb_eq in H
         | H : (_ =? _)%N = false |- _ => apply N.eqb_neq in H
         | H : (_ <=? _)%N = true |- _ => apply N.leb_le in H
         | H : (_ <=? _)%N = false |- _ => apply N.leb_gt in H
         | H : _ && _ = true |- _ => apply andb_true_iff in H; destruct H
         | H : between _ _ _ = true |- _ => apply between_spec in H
         | H : continuation _ = true |- _ =>
           unfold continuation in H; apply between_spec in H
         end.

Lemma encode_char_1 (x : N) :
  (x < 0x80)%N -> utf8_encode_char x = [byte_of_N x].
Proof.
  intros H. unfold utf8_encode_char.
  destruct (N.ltb_spec x 0x80); [reflexivity|lia].
Qed.

Lemma encode_char_2 (a d : N) :
  (2 <= a < 0x20)%N -> (d < 0x40)%N ->
  utf8_encode_char (a * 0x40 + d)
  = [byte_of_N (0xC0 + a); byte_of_N (0x80 + d)].
Proof.
  intros A D. unfold utf8_encode_char.
  destruct (N.ltb_spec (a * 0x40 + d) 0x80); [lia|].
  destruct (N.ltb_spec (a * 0x40 + d) 0x800); [|lia].
  destruct (base64_digits a d D) as [-> ->]. reflexivity.
Qed.

Lemma encode_char_3 (a m d : N) :
  (a < 0x10)%N -> (m < 0x40)%N -> (d < 0x40)%N ->
  (0x20 <= a * 0x40 + m)%N ->
  utf8_encode_char (a * 0x1000 + m * 0x40 + d)
  = [byte_of_N (0xE0 + a); byte_of_N (0x80 + m); byte_of_N (0x80 + d)].
Proof.
  intros A Mi D Lo. unfold utf8_encode_char.
  replace (a * 0x1000 + m * 0x40 + d)%N with ((a * 0x40 + m) * 0x40 + d)%N
    by lia.
  destruct (N.ltb_spec ((a * 0x40 + m) * 0x40 + d) 0x80); [lia|].
  destruct (N.ltb_spec ((a * 0x40 + m) * 0x40 + d) 0x800); [lia|].
  destruct (N.ltb_spec ((a * 0x40 + m) * 0x40 + d) 0x10000); [|lia].
  destruct (base64_digits (a * 0x40 + m) d D) as [E1 ->]. rewrite E1.
  destruct (base64_digits a m Mi) as [E2 ->].
  replace (((a * 0x40 + m) * 0x40 + d) / 0x1000)%N with a; [reflexivity|].
  apply (N.div_unique _ _ _ (m * 0x40 + d)); lia.
Qed.

Lemma encode_char_4 (a l m d : N) :
  (l < 0x40)%N -> (m < 0x40)%N -> (d < 0x40)%N ->
  (0x10 <= a * 0x40 + l)%N ->
  utf8_encode_char (a * 0x40000 + l * 0x1000 + m * 0x40 + d)
  = [byte_of_N (0xF0 + a); byte_of_N (0x80 + l); byte_of_N (0x80 + m);
     byte_of_N (0x80 + d)].
Proof.
  intros L Mi D Lo. unfold utf8_encode_char.
  replace (a * 0x40000 + l * 0x1000 + m * 0x40 + d)%N
    with (((a * 0x40 + l) * 0x40 + m) * 0x40 + d)%N by lia.
  destruct (N.ltb_spec ((((a * 0x40 + l) * 0x40 + m) * 0x40 + d)) 0x80);
    [lia|].
  destruct (N.ltb_spec ((((a * 0x40 + l) * 0x40 + m) * 0x40 + d)) 0x800);
    [lia|].
  destruct (N.ltb_spec ((((a * 0x40 + l) * 0x40 + m) * 0x40 + d)) 0x10000);
    [lia|].
  destruct (base64_digits ((a * 0x40 + l) * 0x40 + m) d D) as [E1 ->].
  rewrite E1.
  destruct (base64_digits (a * 0x40 + l) m Mi) as [E2 ->].
  replace ((((a * 0x40 + l) * 0x40 + m) * 0x40 + d) / 0x1000)%N
    with (a * 0x40 + l)%N.
  2:{ apply (N.div_unique _ _ _ (m * 0x40 + d)); lia. }
  destruct (base64_digits a l L) as [E3 ->].
  replace ((((a * 0x40 + l) * 0x40 + m) * 0x40 + d) / 0x40000)%N with a;
    [reflexivity|].
  apply (N.div_unique _ _ _ (l * 0x1000 + m * 0x40 + d)); lia.
Qed.

Lemma decode_one_sound (bs rest : bytes) (c : N) :
  decode_one bs = Some (c, rest) ->
  bs = utf8_encode_char c ++ rest
  /\ is_scalar c = true
  /\ (List.length rest < List.length bs)%nat.
Proof.
  destruct bs as [|b0 r0]; [discriminate|].
  unfold decode_one. cbv zeta.
  destruct (Byte.to_N b0 <? 0x80)%N eqn:T1.
  { intros E. inversion E; subst; clear E. to_props.
    rewrite (encode_char_1 _ T1), byte_of_to_N.
    repeat split; [|cbn; lia].
    unfold is_scalar, between.
    destruct (N.leb_spec (Byte.to_N b0) 0x10FFFF); [|lia].
    destruct (N.leb_spec 0xD800 (Byte.to_N b0)); [lia|reflexivity]. }
  destruct (Byte.to_N b0 <? 0xC2)%N eqn:T2; [discriminate|].
  destruct (Byte.to_N b0 <? 0xE0)%N eqn:T3.
  { destruct r0 as [|b1 r1]; [discriminate|].
    destruct (continuation (Byte.to_N b1)) eqn:C1; [|discriminate].
    intros E. inversion E; subst; clear E. to_props.
    rewrite encode_char_2 by lia.
    replace (0xC0 + (Byte.to_N b0 - 0xC0))%N with (Byte.to_N b0) by lia.
    replace (0x80 + (Byte.to_N b1 - 0x80))%N with (Byte.to_N b1) by lia.
    rewrite !byte_of_to_N.
    repeat split; [|cbn; lia].
    unfold is_scalar, between.
    destruct (N.leb_spec ((Byte.to_N b0 - 0xC0) * 0x40 + (Byte.to_N b1 - 0x80))
                         0x10FFFF); [|lia].
    destruct (N.leb_spec 0xD800 ((Byte.to_N b0 - 0xC0) * 0x40
                                 + (Byte.to_N b1 - 0x80))); [lia|reflexivity]. }
  destruct (Byte.to_N b0 <? 0xF0)%N eqn:T4.
  { destruct r0 as [|b1 [|b2 r2]]; try discriminate.
    destruct (between _ _ (Byte.to_N b1) && continuation (Byte.to_N b2))
      eqn:C; [|discriminate].
    intros E. inversion E; subst; clear E. to_props.
    assert (B1 : ((if (Byte.to_N b0 =? 0xE0) then 0xA0 else 0x80)
                  <= Byte.to_N b1
                  <= (if (Byte.to_N b0 =? 0xED) then 0x9F else 0xBF))%N)
      by assumption.
    destruct (N.eqb_spec (Byte.to_N b0) 0xE0) as [E0|E0];
      destruct (N.eqb_spec (Byte.to_N b0) 0xED) as [ED|ED];
      try lia;
      (rewrite encode_char_3 by lia;
       replace (0xE0 + (Byte.to_N b0 - 0xE0))%N with (Byte.to_N b0) by lia;
       replace (0x80 + (Byte.to_N b1 - 0x80))%N with (Byte.to_N b1) by lia;
       replace (0x80 + (Byte.to_N b2 - 0x80))%N with (Byte.to_N b2) by lia;
       rewrite !byte_of_to_N;
       repeat split; [|cbn; lia];
       unfold is_scalar, between;
       repeat match goal with
              | |- context [(?x <=? ?y)%N] => destruct (N.leb_spec x y)
              end; try reflexivity; lia). }
  destruct (Byte.to_N b0 <? 0xF5)%N eqn:T5; [|discriminate].
  destruct r0 as [|b1 [|b2 [|b3 r3]]]; try discriminate.
  destruct (between _ _ (Byte.to_N b1) && continuation (Byte.to_N b2)
            && continuation (Byte.to_N b3)) eqn:C; [|discriminate].
  intros E. inversion E; subst; clear E. to_props.
  assert (B1 : ((if (Byte.to_N b0 =? 0xF0) then 0x90 else 0x80)
                <= Byte.to_N b1
                <= (if (Byte.to_N b0 =? 0xF4) then 0x8F else 0xBF))%N)
    by assumption.
  destruct (N.eqb_spec (Byte.to_N b0) 0xF0) as [E0|E0];
    destruct (N.eqb_spec (Byte.to_N b0) 0xF4) as [E4|E4];
    try lia;
    (rewrite encode_char_4 by lia;
     replace (0xF0 + (Byte.to_N b0 - 0xF0))%N with (Byte.to_N b0) by lia;
     replace (0x80 + (Byte.to_N b1 - 0x80))%N with (Byte.to_N b1) by lia;
     replace (0x80 + (Byte.to_N b2 - 0x80))%N with (Byte.to_N b2) by lia;
     replace (0x80 + (Byte.to_N b3 - 0x80))%N with (Byte.to_N b3) by lia;
     rewrite !byte_of_to_N;
     repeat split; [|cbn; lia];
     unfold is_scalar, between;
     repeat match goal with
            | |- context [(?x <=? ?y)%N] => destruct (N.leb_spec x y)
            end; try reflexivity; lia).
Qed.

Lemma utf8_decode_sound (n : nat) :
  forall bs t,
    (List.length bs <= n)%nat ->
    utf8_decode bs = Some t ->
    utf8_encode t = bs /\ forallb is_scalar t = true.
Proof.
  induction n as [|n IH]; intros bs t Len D.
  - destruct bs; [|cbn in Len; lia].
    inversion D. split; reflexivity.
  - rewrite utf8_decode_step in D.
    destruct bs as [|b0 r0]; [inversion D; split; reflexivity|].
    destruct (decode_one (b0 :: r0)) as [[c rest]|] eqn:O; [|discriminate].
    destruct (decode_one_sound _ _ _ O) as (E & Sc & Sh).
    destruct (utf8_decode rest) as [t'|] eqn:D'; [|discriminate].
    inversion D; subst t; clear D.
    destruct (IH rest t') as [E' Sc']; [cbn in *; lia|exact D'|].
    cbn [utf8_encode flat_map forallb].
    change (flat_map utf8_encode_char t') with (utf8_encode t').
    rewrite E', Sc, Sc'. split; [symmetry; exact E|reflexivity].
Qed.

Ltac decide_tests :=
  repeat match goal with
         | |- context [(?x =? ?y)%N] => destruct (N.eqb_spec x y); try lia
         | |- context [(?x <? ?y)%N] => destruct (N.ltb_spec x y); try lia
         | |- context [(?x <=? ?y)%N] => destruct (N.leb_spec x y); try lia
         end.

Lemma decode_one_encode_char (c : N) (rest : bytes) :
  is_scalar c = true ->
  decode_one (utf8_encode_char c ++ rest) = Some (c, rest).
Proof.
  intros Sc. unfold is_scalar in Sc. to_props.
  assert (NS : ~ (0xD800 <= c <= 0xDFFF)%N).
  { intros B. apply between_spec in B.
    match goal with H : negb _ = true |- _ => rewrite B in H; discriminate end. }
  pose proof (N.div_mod c 0x40) as E1.
  pose proof (N.mod_lt c 0x40) as L1.
  pose proof (N.div_mod (c / 0x40) 0x40) as E2.
  pose proof (N.mod_lt (c / 0x40) 0x40) as L2.
  pose proof (N.div_mod (c / 0x40 / 0x40) 0x40) as E3.
  pose proof (N.mod_lt (c / 0x40 / 0x40) 0x40) as L3.
  assert (D2 : (c / 0x1000 = c / 0x40 / 0x40)%N)
    by (rewrite N.Div0.div_div; reflexivity).
  assert (D3 : (c / 0x40000 = c / 0x40 / 0x40 / 0x40)%N)
    by (rewrite !N.Div0.div_div; reflexivity).
  unfold utf8_encode_char.
  rewrite D2, D3.
  set (d := (c mod 0x40)%N) in *.
  set (q := (c / 0x40)%N) in *.
  set (m := (q mod 0x40)%N) in *.
  set (q2 := (q / 0x40)%N) in *.
  set (l := (q2 mod 0x40)%N) in *.
  set (q3 := (q2 / 0x40)%N) in *.
  specialize (E1 ltac:(lia)). specialize (L1 ltac:(lia)).
  specialize (E2 ltac:(lia)). specialize (L2 ltac:(lia)).
  specialize (E3 ltac:(lia)). specialize (L3 ltac:(lia)).
  destruct (N.ltb_spec c 0x80) as [R1|R1].
  { cbn [app decode_one]. cbv zeta. rewrite to_N_byte_of by lia.
    destruct (N.ltb_spec c 0x80); [reflexivity|lia]. }
  destruct (N.ltb_spec c 0x800) as [R2|R2].
  { cbn [app decode_one]. cbv zeta. rewrite !to_N_byte_of by lia.
    unfold continuation, between. decide_tests.
    cbn [andb]. f_equal. f_equal. lia. }
  destruct (N.ltb_spec c 0x10000) as [R3|R3].
  { cbn [app decode_one]. cbv zeta. rewrite !to_N_byte_of by lia.
    unfold continuation, between. decide_tests;
      cbn [andb]; f_equal; f_equal; lia. }
  cbn [app decode_one]. cbv zeta. rewrite !to_N_byte_of by lia.
  unfold continuation, between. decide_tests;
    cbn [andb]; f_equal; f_equal; lia.
Qed.

Lemma encode_char_not_nil (c : N) : utf8_encode_char c <> [].
Proof.
  unfold utf8_encode_char.
  destruct (c <? 0x80)%N; [discriminate|].
  destruct (c <? 0x800)%N; [discriminate|].
  destruct (c <? 0x10000)%N; discriminate.
Qed.

Lemma utf8_decode_complete (t : text) :
  forallb is_scalar t = true -> utf8_decode (utf8_encode t) = Some t.
Proof.
  induction t as [|c t IH]; intros Sc; [reflexivity|].
  cbn [forallb] in Sc. apply andb_true_iff in Sc. destruct Sc as [Sc St].
  cbn [utf8_encode flat_map].
  change (flat_map utf8_encode_char t) with (utf8_encode t).
  rewrite utf8_decode_step.
  destruct (utf8_encode_char c ++ utf8_encode t) as [|x r] eqn:E.
  { apply app_eq_nil in E. destruct E as [E _].
    now destruct (encode_char_not_nil c). }
  rewrite <- E, (decode_one_encode_char c _ Sc), (IH St). reflexivity.
Qed.

(** X12: the text printed for a body gives the body back: when the bytes
    decode, encoding the text as UTF-8 yields the same bytes again, and the
    text holds Unicode scalar values only (no surrogate, nothing above
    U+10FFFF; no overlong form is accepted). *)
Theorem body_text_encodes_to_body (bs : bytes) (t : text) :
  utf8_decode bs = Some t ->
  utf8_encode t = bs /\ forallb is_scalar t = true.
Proof. intros D. exact (utf8_decode_sound (List.length bs) bs t (le_n _) D). Qed.

Lemma body_text_encodes_to_body_sample :
  utf8_decode [x68; xc3; xa9; xe2; x82; xac] = Some [0x68; 0xE9; 0x20AC]%N
  /\ utf8_encode [0x68; 0xE9; 0x20AC]%N = [x68; xc3; xa9; xe2; x82; xac]
  /\ forallb is_scalar [0x68; 0xE9; 0x20AC]%N = true.
Proof.
  split; [reflexivity|].
  exact (body_text_encodes_to_body [x68; xc3; xa9; xe2; x82; xac]
                                   [0x68; 0xE9; 0x20AC]%N eq_refl).
Defined.

(** X13: every text of Unicode scalar values that a client sends in UTF-8
    decodes, to that text: the decoding refuses no well-formed body. *)
Theorem encoded_text_decodes (t : text) :
  forallb is_scalar t = true -> utf8_decode (utf8_encode t) = Some t.
Proof. exact (utf8_decode_complete t). Qed.

Lemma encoded_text_decodes_sample :
  forallb is_scalar [0x7A; 0x3B1; 0xD7FF; 0xE000; 0x1F600; 0x10FFFF]%N = true
  /\ utf8_decode (utf8_encode [0x7A; 0x3B1; 0xD7FF; 0xE000; 0x1F600;
                               0x10FFFF]%N)
     = Some [0x7A; 0x3B1; 0xD7FF; 0xE000; 0x1F600; 0x10FFFF]%N.
Proof.
  split; [reflexivity|].
  exact (encoded_text_decodes [0x7A; 0x3B1; 0xD7FF; 0xE000; 0x1F600;
                                0x10FFFF]%N eq_refl).
Defined.

(** X14: the console tells the bodies apart.  When two POST requests are
    handled to the end and their last console lines, the [Body:] lines, are
    the same, then the handlers have taken the same bytes from their
    inputs. *)
Theorem same_body_line_same_bytes (e1 e2 : environ) (self1 self2 : request)
        (f1 f2 : stream) (out1 out2 : list text)
        (err1 err2 : list diagnostic) (w1 w2 : world) :
  do_POST e1 self1 (mkWorld f1 [] [] out1 err1) = (Returned tt, w1) ->
  do_POST e2 self2 (mkWorld f2 [] [] out2 err2) = (Returned tt, w2) ->
  last (stdout w1) [] = last (stdout w2) [] ->
  exists post_data,
    pending f1 = post_data ++ pending (rfile w1)
    /\ pending f2 = post_data ++ pending (rfile w2).
Proof.
  intros R1 R2 L.
  destruct (do_POST_returned _ _ _ _ _ _ _ _ R1)
    as (n1 & d1 & g1 & t1 & I1 & Rd1 & D1).
  destruct (do_POST_returned _ _ _ _ _ _ _ _ R2)
    as (n2 & d2 & g2 & t2 & I2 & Rd2 & D2).
  rewrite (do_POST_read _ _ n1 I1), Rd1,
    (log_and_reply_decoded _ _ d1 t1 D1) in R1.
  rewrite (do_POST_read _ _ n2 I2), Rd2,
    (log_and_reply_decoded _ _ d2 t2 D2) in R2.
  split_run R1. split_run R2. cbn [stdout rfile] in *.
  rewrite !app_assoc, !last_last in L.
  apply app_inv_head in L. subst t2.
  destruct (utf8_decode_sound _ _ _ (le_n _) D1) as [E1 _].
  destruct (utf8_decode_sound _ _ _ (le_n _) D2) as [E2 _].
  exists d1. split.
  - apply (read_returned_prefix _ _ _ _ Rd1).
  - rewrite E1 in E2. subst d2. apply (read_returned_prefix _ _ _ _ Rd2).
Qed.

Lemma same_body_line_same_bytes_sample :
  let w1 := snd (handle_one_request post_webhook (accept post_webhook [] [])) in
  let w2 := snd (do_POST a_second_later (mkRequest "/other" [("content-length", " 7 ")])
                         (mkWorld (mkStream (b json_body ++ b "more") true)
                                  [] [] [] [])) in
  last (stdout w1) [] = last (stdout w2) []
  /\ exists post_data,
      pending (conn_input post_webhook) = post_data ++ pending (rfile w1)
      /\ b json_body ++ b "more" = post_data ++ pending (rfile w2).
Proof.
  cbv zeta.
  assert (R1 : do_POST an_environ (conn_request post_webhook)
                       (mkWorld (conn_input post_webhook) [] [] [] [])
               = (Returned tt,
                  snd (handle_one_request post_webhook
                                          (accept post_webhook [] []))))
    by (vm_compute; reflexivity).
  assert (R2 : do_POST a_second_later
                       (mkRequest "/other" [("content-length", " 7 ")])
                       (mkWorld (mkStream (b json_body ++ b "more") true)
                                [] [] [] [])
               = (Returned tt,
                  snd (do_POST a_second_later
                               (mkRequest "/other" [("content-length", " 7 ")])
                               (mkWorld (mkStream (b json_body ++ b "more") true)
                                        [] [] [] []))))
    by (vm_compute; reflexivity).
  assert (L : last (stdout (snd (handle_one_request
                                   post_webhook (accept post_webhook [] []))))
                   []
              = last (stdout (snd (do_POST a_second_later
                                           (mkRequest "/other"
                                                      [("content-length", " 7 ")])
                                           (mkWorld (mkStream (b json_body ++ b "more") true)
                                                    [] [] [] []))))
                     [])
    by (vm_compute; reflexivity).
  split; [exact L|].
  exact (same_body_line_same_bytes _ _ _ _ _ _ _ _ _ _ _ _ R1 R2 L).
Defined.


(** ** Decimal numerals and [int] *)

Ltac scan_step :=
  cbn [scan_digits];
  match goal with
  | |- context [is_underscore ?a] =>
    let v := eval vm_compute in (is_underscore a) in
    change (is_underscore a) with v
  end;
  match goal with
  | |- context [digit_value ?a] =>
    let v := eval vm_compute in (digit_value a) in
    change (digit_value a) with v
  end;
  cbv iota.

Ltac same_count :=
  match goal with
  | |- Some (_, _, ?c1, _) = Some (_, _, ?c2, _) =>
    replace c1 with c2 by lia
  end;
  reflexivity.

Lemma scan_digits_uint_acc (d : Decimal.uint) :
  forall (p : positive) (n : N),
    scan_digits (NilEmpty.string_of_uint d) false n (Z.pos p)
    = Some (EmptyString, false, (n + N.of_nat (Decimal.nb_digits d))%N,
            Z.pos (Pos.of_uint_acc d p)).
Proof.
  induction d; intros p n; cbn [NilEmpty.string_of_uint Decimal.nb_digits];
    [cbn; now rewrite N.add_0_r|..];
    scan_step; cbn [Pos.of_uint_acc];
    match goal with
    | |- scan_digits _ _ _ ?acc = Some (_, Z.pos (Pos.of_uint_acc d ?q)) =>
      replace acc with (Z.pos q) by lia
    end;
    rewrite IHd; same_count.
Qed.

Lemma scan_digits_uint (d : Decimal.uint) :
  forall n : N,
    exists u,
      scan_digits (NilEmpty.string_of_uint d) false n 0
      = Some (EmptyString, u, (n + N.of_nat (Decimal.nb_digits d))%N,
              Z.of_N (Pos.of_uint d))
      /\ (d <> Decimal.Nil -> u = false).
Proof.
  induction d; intros n; cbn [NilEmpty.string_of_uint Decimal.nb_digits].
  - exists false. cbn. rewrite N.add_0_r. auto.
  - scan_step. cbn [Pos.of_uint]. change (0 * 10 + 0)%Z with 0%Z.
    destruct (IHd (n + 1)%N) as (u & E & U).
    destruct d.
    + exists false. cbn. split; [same_count|auto].
    + exists false. rewrite E, U by discriminate.
      split; [same_count|auto].
    + exists false. rewrite E, U by discriminate.
      split; [same_count|auto].
    + exists false. rewrite E, U by discriminate.
      split; [same_count|auto].
    + exists false. rewrite E, U by discriminate.
      split; [same_count|auto].
    + exists false. rewrite E, U by discriminate.
      split; [same_count|auto].
    + exists false. rewrite E, U by discriminate.
      split; [same_count|auto].
    + exists false. rewrite E, U by discriminate.
      split; [same_count|auto].
    + exists false. rewrite E, U by discriminate.
      split; [same_count|auto].
    + exists false. rewrite E, U by discriminate.
      split; [same_count|auto].
    + exists false. rewrite E, U by discriminate.
      split; [same_count|auto].
  - scan_step. cbn [Pos.of_uint]. exists false.
    change (0 * 10 + 1)%Z with (Z.pos 1). rewrite scan_digits_uint_acc.
    split; [same_count|auto].
  - scan_step. cbn [Pos.of_uint]. exists false.
    change (0 * 10 + 2)%Z with (Z.pos 2). rewrite scan_digits_uint_acc.
    split; [same_count|auto].
  - scan_step. cbn [Pos.of_uint]. exists false.
    change (0 * 10 + 3)%Z with (Z.pos 3). rewrite scan_digits_uint_acc.
    split; [same_count|auto].
  - scan_step. cbn [Pos.of_uint]. exists false.
    change (0 * 10 + 4)%Z with (Z.pos 4). rewrite scan_digits_uint_acc.
    split; [same_count|auto].
  - scan_step. cbn [Pos.of_uint]. exists false.
    change (0 * 10 + 5)%Z with (Z.pos 5). rewrite scan_digits_uint_acc.
    split; [same_count|auto].
  - scan_step. cbn [Pos.of_uint]. exists false.
    change (0 * 10 + 6)%Z with (Z.pos 6). rewrite scan_digits_uint_acc.
    split; [same_count|auto].
  - scan_step. cbn [Pos.of_uint]. exists false.
    change (0 * 10 + 7)%Z with (Z.pos 7). rewrite scan_digits_uint_acc.
    split; [same_count|auto].
  - scan_step. cbn [Pos.of_uint]. exists false.
    change (0 * 10 + 8)%Z with (Z.pos 8). rewrite scan_digits_uint_acc.
    split; [same_count|auto].
  - scan_step. cbn [Pos.of_uint]. exists false.
    change (0 * 10 + 9)%Z with (Z.pos 9). rewrite scan_digits_uint_acc.
    split; [same_count|auto].
Qed.

Lemma string_of_uint_ascii (d : Decimal.uint) :
  is_ascii (NilEmpty.string_of_uint d) = true.
Proof. induction d; cbn; auto. Qed.

Lemma string_of_uint_length (d : Decimal.uint) :
  String.length (NilEmpty.string_of_uint d) = Decimal.nb_digits d.
Proof. induction d; cbn; auto. Qed.

Lemma nilzero_nonnil (d : Decimal.uint) :
  d <> Decimal.Nil ->
  NilZero.string_of_uint d = NilEmpty.string_of_uint d.
Proof. destruct d; [now intros []|reflexivity..]. Qed.

Lemma parse_numeral (d : Decimal.uint) :
  d <> Decimal.Nil ->
  parse_int_literal (NilEmpty.string_of_uint d)
  = after_scan false (NilEmpty.string_of_uint d)
  /\ parse_int_literal (String "-" (NilEmpty.string_of_uint d))
     = after_scan true (NilEmpty.string_of_uint d).
Proof.
  intros Nn. pose proof (string_of_uint_ascii d) as A.
  assert (A' : is_ascii (String "-" (NilEmpty.string_of_uint d)) = true)
    by exact A.
  unfold parse_int_literal, transform_decimal_and_space_to_ascii.
  rewrite A, A'.
  destruct d; [now destruct Nn|..]; split; reflexivity.
Qed.

Lemma nb_digits_nonnil (d : Decimal.uint) :
  d <> Decimal.Nil -> (1 <= Decimal.nb_digits d)%nat.
Proof. destruct d; [now intros []|cbn; lia..]. Qed.

Lemma int_of_numeral (d : Decimal.uint) :
  d <> Decimal.Nil ->
  (Decimal.nb_digits d <= 4300)%nat ->
  int_of_str (NilEmpty.string_of_uint d) = Some (Z.of_N (Pos.of_uint d))
  /\ int_of_str (String "-" (NilEmpty.string_of_uint d))
     = Some (- Z.of_N (Pos.of_uint d))%Z.
Proof.
  intros Nn Le. pose proof (nb_digits_nonnil d Nn) as Ge.
  destruct (parse_numeral d Nn) as [P1 P2].
  destruct (scan_digits_uint d 0) as (u & E & U). rewrite (U Nn) in E.
  unfold int_of_str, max_str_digits. rewrite P1, P2. unfold after_scan.
  rewrite E. cbn [skip_space is_empty].
  destruct (N.eqb_spec (0 + N.of_nat (Decimal.nb_digits d)) 0); [lia|].
  destruct (N.ltb_spec 4300 (0 + N.of_nat (Decimal.nb_digits d))); [lia|].
  split; reflexivity.
Qed.

(** X15: [int] reads back what is written in decimal: for an integer whose
    numeral has at most 4300 digits, the numeral, as [%d] and an f-string
    write it, is a valid literal and [int] returns the integer.  A client
    that sends [Content-Length] in this form is understood. *)
Theorem int_reads_decimal (z : Z) :
  (String.length (decimal (Z.abs z)) <= 4300)%nat ->
  int_of_str (decimal z) = Some z.
Proof.
  destruct z as [|p|p]; [reflexivity|..]; unfold decimal;
    cbn [Z.abs Z.to_int NilZero.string_of_int];
    rewrite (nilzero_nonnil _ (DecimalPos.Unsigned.to_uint_nonnil p));
    rewrite string_of_uint_length; intros Le;
    destruct (int_of_numeral _ (DecimalPos.Unsigned.to_uint_nonnil p) Le)
      as [E1 E2];
    rewrite DecimalPos.Unsigned.of_to in E1, E2; assumption.
Qed.

Lemma int_reads_decimal_sample :
  (String.length (decimal (Z.abs (-1234567890))) <= 4300)%nat
  /\ int_of_str (decimal (-1234567890)) = Some (-1234567890)%Z.
Proof.
  assert (Le : (String.length (decimal (Z.abs (-1234567890))) <= 4300)%nat)
    by (vm_compute; lia).
  split; [exact Le|].
  exact (int_reads_decimal (-1234567890) Le).
Defined.

(** ** When the listener waits *)




